(** * Ward-level PM2.5 dashboard ([app.py]): filtering, map figure, legend, date label

    The callback [update_graph] of [app.py] selects the rows of the loaded
    table for one city and one day of the year, hands them to
    [generate_plot], draws a colour-bar legend with pyplot and formats the
    selected day as a date.  This development embeds those steps:

    - [Datetime]: the part of Python's [datetime.date] the program uses
      (ordinals, [date + timedelta], [strftime]) and pandas' [dayofyear];
    - [Base64]: [base64.b64encode] and the decoder that inverts it;
    - [Pyplot]: the figure registry behind [plt.subplots], [plt.colorbar]
      and [plt.close], as explicit state passing;
    - [Shapely], [Plotly]: ward boundaries, the figure [generate_plot]
      builds, and how plotly reads it (shapes, hover template);
    - section [Dashboard]: the table, the boolean-mask filter,
      [generate_plot] and [update_graph], with shapely's centroid and
      pyplot's [savefig] as parameters.

    Numbers that are Python floats in the program (PM2.5 values,
    coordinates, zoom) are exact rationals here. *)

From stdpp Require Import base list strings.
From Stdlib Require Import ZArith QArith Ascii String Lia.
From Stdlib.Strings Require Byte.

Local Open Scope string_scope.
Local Open Scope list_scope.
Local Open Scope Z_scope.

(** ** Results of code that may raise *)

Inductive exn : Type :=
  | ValueError
  | OverflowError.

Inductive result (A : Type) : Type :=
  | Ok (a : A)
  | Raise (e : exn).
Arguments Ok {A} a.
Arguments Raise {A} e.

#[global] Instance result_ret : MRet result := fun A a => Ok a.

#[global] Instance result_bind : MBind result := fun A B k r =>
  match r with
  | Ok a => k a
  | Raise e => Raise e
  end.

(** ** Python's [datetime.date] *)

Module Datetime.

Record date : Type := mkdate { year : Z; month : Z; day : Z }.

Definition MINYEAR : Z := 1.
Definition MAXYEAR : Z := 9999.
Definition MAXORDINAL : Z := 3652059.

(** Index 0 is a placeholder, as in CPython's tables. *)
Definition DAYS_IN_MONTH : list Z :=
  [-1; 31; 28; 31; 30; 31; 30; 31; 31; 30; 31; 30; 31].

Definition DAYS_BEFORE_MONTH : list Z :=
  [-1; 0; 31; 59; 90; 120; 151; 181; 212; 243; 273; 304; 334].

Definition tbl (t : list Z) (i : Z) : Z := nth (Z.to_nat i) t 0.

Definition is_leap (y : Z) : bool :=
  (y mod 4 =? 0) && (negb (y mod 100 =? 0) || (y mod 400 =? 0)).

Definition days_before_year (y0 : Z) : Z :=
  let y := y0 - 1 in y * 365 + y / 4 - y / 100 + y / 400.

Definition days_in_month (y m : Z) : Z :=
  if (m =? 2) && is_leap y then 29 else tbl DAYS_IN_MONTH m.

Definition days_before_month (y m : Z) : Z :=
  tbl DAYS_BEFORE_MONTH m + (if (2 <? m) && is_leap y then 1 else 0).

Definition ymd2ord (y m d : Z) : Z :=
  days_before_year y + days_before_month y m + d.

Definition DI400Y : Z := days_before_year 401.
Definition DI100Y : Z := days_before_year 101.
Definition DI4Y : Z := days_before_year 5.

Definition ord2ymd (n0 : Z) : date :=
  let n := n0 - 1 in
  let n400 := n / DI400Y in
  let n := n mod DI400Y in
  let y := n400 * 400 + 1 in
  let n100 := n / DI100Y in
  let n := n mod DI100Y in
  let n4 := n / DI4Y in
  let n := n mod DI4Y in
  let n1 := n / 365 in
  let n := n mod 365 in
  let y := y + n100 * 100 + n4 * 4 + n1 in
  if (n1 =? 4) || (n100 =? 4) then mkdate (y - 1) 12 31
  else
    let leapyear := (n1 =? 3) && (negb (n4 =? 24) || (n100 =? 3)) in
    let m := Z.shiftr (n + 50) 5 in
    let preceding :=
      tbl DAYS_BEFORE_MONTH m + (if (2 <? m) && leapyear then 1 else 0) in
    if n <? preceding then
      let m' := m - 1 in
      let preceding' :=
        preceding
        - (tbl DAYS_IN_MONTH m' + (if (m' =? 2) && leapyear then 1 else 0)) in
      mkdate y m' (n - preceding' + 1)
    else mkdate y m (n - preceding + 1).

(** [datetime.date(y, m, d)]: [ValueError] outside the calendar. *)
Definition date_new (y m d : Z) : result date :=
  if (MINYEAR <=? y) && (y <=? MAXYEAR)
     && (1 <=? m) && (m <=? 12)
     && (1 <=? d) && (d <=? days_in_month y m)
  then Ok (mkdate y m d) else Raise ValueError.

Definition toordinal (d : date) : Z := ymd2ord (year d) (month d) (day d).

(** [datetime.timedelta(days=n)]: only the day count matters here. *)
Definition timedelta (days : Z) : result Z :=
  if (-999999999 <=? days) && (days <=? 999999999)
  then Ok days else Raise OverflowError.

(** [date.__add__]. *)
Definition date_add (d : date) (delta : Z) : result date :=
  let o := toordinal d + delta in
  if (0 <? o) && (o <=? MAXORDINAL) then Ok (ord2ymd o)
  else Raise OverflowError.

(** pandas' [Series.dt.dayofyear] on a calendar date. *)
Definition dayofyear (d : date) : Z :=
  days_before_month (year d) (month d) + day d.

(** *** [strftime] for the directives the program uses (C locale) *)

Definition MONTH_ABBR : list string :=
  [""; "Jan"; "Feb"; "Mar"; "Apr"; "May"; "Jun";
   "Jul"; "Aug"; "Sep"; "Oct"; "Nov"; "Dec"].

Definition month_abbr (m : Z) : string := nth (Z.to_nat m) MONTH_ABBR "".

Definition digit (n : Z) : ascii := ascii_of_N (Z.to_N (48 + n mod 10)).

(** Decimal digits of a non-negative number, least significant last;
    [fuel] bounds the number of digits. *)
Fixpoint decimal_aux (fuel : nat) (n : Z) (acc : string) : string :=
  match fuel with
  | O => acc
  | S f =>
      let acc' := String (digit n) acc in
      if n <? 10 then acc' else decimal_aux f (n / 10) acc'
  end.

Definition decimal (n : Z) : string := decimal_aux 20 n "".

Definition pad2 (n : Z) : string :=
  String (digit (n / 10)) (String (digit n) "").

Definition directive (c : ascii) (d : date) : string :=
  if Ascii.eqb c "b" then month_abbr (month d)
  else if Ascii.eqb c "d" then pad2 (day d)
  else if Ascii.eqb c "Y" then decimal (year d)
  else if Ascii.eqb c "%" then "%"
  else String "%" (String c "").

Fixpoint strftime (fmt : string) (d : date) : string :=
  match fmt with
  | "" => ""
  | String c rest =>
      if Ascii.eqb c "%" then
        match rest with
        | "" => "%"
        | String c' rest' => String.append (directive c' d) (strftime rest' d)
        end
      else String c (strftime rest d)
  end.

End Datetime.

(** ** [base64.b64encode] *)

Module Base64.

Definition alphabet : string :=
  "ABCDEFGHIJKLMNOPQRSTUVWXYZabcdefghijklmnopqrstuvwxyz0123456789+/".

Definition pad : ascii := "="%char.

(** The character of a 6-bit group. *)
Definition enc6 (n : N) : ascii :=
  match String.get (N.to_nat n) alphabet with
  | Some c => c
  | None => pad
  end.

Fixpoint index_of (c : ascii) (s : string) (i : N) : option N :=
  match s with
  | "" => None
  | String c' s' => if Ascii.eqb c c' then Some i else index_of c s' (N.succ i)
  end.

(** The 6-bit group of a character of the alphabet. *)
Definition dec6 (c : ascii) : option N := index_of c alphabet 0%N.

Definition byte_of (n : N) : Byte.byte :=
  match Byte.of_N n with
  | Some b => b
  | None => Byte.x00
  end.

(** Three bytes become four characters; a tail of one or two bytes is
    padded with [=]. *)
Fixpoint b64encode (bs : list Byte.byte) : string :=
  match bs with
  | [] => ""
  | [a] =>
      let a := Byte.to_N a in
      String (enc6 (a / 4)) (String (enc6 (a mod 4 * 16))
        (String pad (String pad "")))
  | [a; b] =>
      let a := Byte.to_N a in
      let b := Byte.to_N b in
      String (enc6 (a / 4)) (String (enc6 (a mod 4 * 16 + b / 16))
        (String (enc6 (b mod 16 * 4)) (String pad "")))
  | a :: b :: c :: rest =>
      let a := Byte.to_N a in
      let b := Byte.to_N b in
      let c := Byte.to_N c in
      String (enc6 (a / 4)) (String (enc6 (a mod 4 * 16 + b / 16))
        (String (enc6 (b mod 16 * 4 + c / 64)) (String (enc6 (c mod 64))
          (b64encode rest))))
  end%N.

(** [base64.b64decode] on canonical input: groups of four characters,
    padding only in the last group. *)
Fixpoint b64decode (s : string) : option (list Byte.byte) :=
  match s with
  | "" => Some []
  | String c1 (String c2 (String c3 (String c4 rest))) =>
      match dec6 c1, dec6 c2 with
      | Some x1, Some x2 =>
          let b1 := byte_of (x1 * 4 + x2 / 16) in
          if Ascii.eqb c3 pad then
            if Ascii.eqb c4 pad && String.eqb rest "" then Some [b1] else None
          else
            match dec6 c3 with
            | Some x3 =>
                let b2 := byte_of (x2 mod 16 * 16 + x3 / 4) in
                if Ascii.eqb c4 pad then
                  if String.eqb rest "" then Some [b1; b2] else None
                else
                  match dec6 c4, b64decode rest with
                  | Some x4, Some bs =>
                      Some (b1 :: b2 :: byte_of (x3 mod 4 * 64 + x4) :: bs)
                  | _, _ => None
                  end
            | None => None
            end
      | _, _ => None
      end
  | _ => None
  end%N.

End Base64.

(** ** pyplot: the figure registry and the colour bar *)

Module Pyplot.

Inductive extend_t : Type := ExtendNeither | ExtendBoth | ExtendMin | ExtendMax.
Inductive orientation_t : Type := Vertical | Horizontal.

Record Normalize : Type := { vmin : Q; vmax : Q }.

Record ScalarMappable : Type :=
  { sm_cmap : string; sm_norm : Normalize; sm_array : option (list Q) }.

Record Colorbar : Type :=
  { cb_mappable : ScalarMappable;
    cb_extend : extend_t;
    cb_label : string;
    cb_orientation : orientation_t }.

(** An axes is either an ordinary plot area or the host of a colour bar. *)
Record Axes : Type := { ax_visible : bool; ax_colorbar : option Colorbar }.

Record Figure : Type :=
  { figsize : Q * Q; fig_dpi : Q; fig_axes : list Axes }.

Record SaveOptions : Type :=
  { sv_format : string; sv_bbox_inches : string; sv_pad_inches : Q }.

(** [Gcf.figs]: the open figures by number, in order of activation. *)
Definition Gcf : Type := list (N * Figure).

(** A figure handle is its number; an axes handle adds its position. *)
Definition FigureRef : Type := N.
Definition AxesRef : Type := (N * nat)%type.

Definition next_num (g : Gcf) : N :=
  match g with
  | [] => 1
  | _ => N.succ (foldr N.max 0 (map fst g))
  end%N.

Definition get_figure (num : FigureRef) (g : Gcf) : option Figure :=
  snd <$> List.find (fun e => N.eqb (fst e) num) g.

Definition update_figure (num : FigureRef) (f : Figure -> Figure) (g : Gcf) : Gcf :=
  map (fun e => if N.eqb (fst e) num then (fst e, f (snd e)) else e) g.

(** [plt.subplots(figsize=..., dpi=...)]: a new figure with one axes. *)
Definition subplots (size : Q * Q) (dpi : Q) (g : Gcf) : (FigureRef * AxesRef) * Gcf :=
  let num := next_num g in
  let fig :=
    {| figsize := size; fig_dpi := dpi;
       fig_axes := [ {| ax_visible := true; ax_colorbar := None |} ] |} in
  ((num, (num, 0%nat)), g ++ [(num, fig)]).

Definition set_array (sm : ScalarMappable) (a : list Q) : ScalarMappable :=
  {| sm_cmap := sm_cmap sm; sm_norm := sm_norm sm; sm_array := Some a |}.

(** [ax.set_visible(b)]. *)
Definition set_visible (ax : AxesRef) (b : bool) (g : Gcf) : Gcf :=
  update_figure (fst ax)
    (fun fig =>
       {| figsize := figsize fig; fig_dpi := fig_dpi fig;
          fig_axes :=
            alter (fun a => {| ax_visible := b; ax_colorbar := ax_colorbar a |})
                  (snd ax) (fig_axes fig) |})
    g.

(** [plt.colorbar(sm, ax=ax, extend=..., label=..., orientation=...)]:
    a new axes holding the bar is added to the figure of [ax]. *)
Definition colorbar (sm : ScalarMappable) (ax : AxesRef) (ext : extend_t)
    (label : string) (orient : orientation_t) (g : Gcf) : Gcf :=
  let cb :=
    {| cb_mappable := sm; cb_extend := ext;
       cb_label := label; cb_orientation := orient |} in
  update_figure (fst ax)
    (fun fig =>
       {| figsize := figsize fig; fig_dpi := fig_dpi fig;
          fig_axes :=
            fig_axes fig ++ [ {| ax_visible := true; ax_colorbar := Some cb |} ] |})
    g.

(** [plt.close(fig)]. *)
Definition close (num : FigureRef) (g : Gcf) : Gcf :=
  List.filter (fun e => negb (N.eqb (fst e) num)) g.

End Pyplot.

(** ** Ward boundaries, as [shapely.wkt.loads] returns them *)

Module Shapely.

Definition Ring : Type := list (Q * Q).

Inductive Geometry : Type :=
  | Polygon (shell : Ring) (holes : list Ring)
  | MultiPolygon (parts : list (Ring * list Ring)).

End Shapely.

(** ** The figure handed to plotly *)

Module Plotly.

(** A GeoJSON feature: its id and its geometry. *)
Record Feature : Type := { feat_id : Z; feat_geometry : Shapely.Geometry }.

Record ColorAxis : Type :=
  { colorscale : string; cmid : Q; cmin : Q; cmax : Q; showscale : bool }.

Record Center : Type := { lat : option Q; lon : option Q }.

Record Mapbox : Type := { style : string; zoom : Q; center : Center }.

Record Margin : Type := { mr : Z; mt : Z; ml : Z; mb : Z }.

Definition CustomRow : Type := (string * string * Q)%type.

Record Trace : Type :=
  { geojson : list Feature;
    locations : list Z;
    z : list Q;
    opacity : Q;
    customdata : list CustomRow;
    hovertemplate : string }.

Record Figure : Type :=
  { data : Trace; coloraxis : ColorAxis; mapbox : Mapbox; margin : Margin }.

(** [px.choropleth_mapbox]: one trace over the rows it is given, with
    the colour axis and the map frame of the call.  The hover fields of
    the new trace are left empty: [update_traces] replaces them. *)
Definition choropleth_mapbox (gj : list Feature) (locs : list Z) (color : list Q)
    (color_continuous_scale : string) (color_continuous_midpoint : Q)
    (range_color : Q * Q) (mapbox_style : string) (zoom_level : Q)
    (map_center : Center) (trace_opacity : Q) : Figure :=
  {| data :=
       {| geojson := gj; locations := locs; z := color;
          opacity := trace_opacity; customdata := []; hovertemplate := "" |};
     coloraxis :=
       {| colorscale := color_continuous_scale;
          cmid := color_continuous_midpoint;
          cmin := fst range_color; cmax := snd range_color;
          showscale := true |};
     mapbox :=
       {| style := mapbox_style; zoom := zoom_level; center := map_center |};
     margin := {| mr := 80; mt := 60; ml := 80; mb := 80 |} |}.

(** [fig.update_traces(customdata=..., hovertemplate=...)]. *)
Definition update_traces (fig : Figure) (cd : list CustomRow) (tpl : string) : Figure :=
  {| data :=
       {| geojson := geojson (data fig); locations := locations (data fig);
          z := z (data fig); opacity := opacity (data fig);
          customdata := cd; hovertemplate := tpl |};
     coloraxis := coloraxis fig; mapbox := mapbox fig; margin := margin fig |}.

(** [fig.update_layout(coloraxis_showscale=...)]. *)
Definition update_layout_showscale (fig : Figure) (b : bool) : Figure :=
  {| data := data fig;
     coloraxis :=
       {| colorscale := colorscale (coloraxis fig); cmid := cmid (coloraxis fig);
          cmin := cmin (coloraxis fig); cmax := cmax (coloraxis fig);
          showscale := b |};
     mapbox := mapbox fig; margin := margin fig |}.

(** [fig.update_layout(margin=...)]. *)
Definition update_layout_margin (fig : Figure) (m : Margin) : Figure :=
  {| data := data fig; coloraxis := coloraxis fig; mapbox := mapbox fig;
     margin := m |}.

(** *** What the figure shows *)

Record Point : Type :=
  { pt_location : Z; pt_z : option Q; pt_customdata : option CustomRow }.

Fixpoint points_of (locs : list Z) (zs : list Q) (cds : list CustomRow) : list Point :=
  match locs with
  | [] => []
  | loc :: locs' =>
      {| pt_location := loc; pt_z := head zs; pt_customdata := head cds |}
      :: points_of locs' (tail zs) (tail cds)
  end.

Definition points (t : Trace) : list Point :=
  points_of (locations t) (z t) (customdata t).

(** plotly draws a location with the geometry of the feature of the
    GeoJSON whose id is that location. *)
Definition find_feature (gj : list Feature) (id : Z) : option Shapely.Geometry :=
  feat_geometry <$> List.find (fun f => Z.eqb (feat_id f) id) gj.

Record Shape : Type :=
  { sh_key : Z;
    sh_geometry : Shapely.Geometry;
    sh_value : option Q;
    sh_hover : option CustomRow }.

Definition shape_of (gj : list Feature) (p : Point) : option Shape :=
  match find_feature gj (pt_location p) with
  | Some g =>
      Some {| sh_key := pt_location p; sh_geometry := g;
              sh_value := pt_z p; sh_hover := pt_customdata p |}
  | None => None
  end.

Definition polygons (fig : Figure) : list Shape :=
  omap (shape_of (geojson (data fig))) (points (data fig)).

(** *** Hover templates: [%{key}] and [%{key:format}] between literal text *)

Inductive piece : Type :=
  | Text (s : string)
  | Field (key : string) (fmt : option string).

Inductive pstate : Type :=
  | InText (acc : string)
  | InKey (acc : string)
  | InFormat (key acc : string).

Definition snoc (s : string) (c : ascii) : string := String.append s (String c "").

Definition flush (acc : string) : list piece :=
  match acc with "" => [] | _ => [Text acc] end.

Fixpoint parse_template (st : pstate) (s : string) : list piece :=
  match s with
  | "" =>
      match st with
      | InText acc => flush acc
      | InKey acc => flush (String.append "%{" acc)
      | InFormat key acc =>
          flush (String.append "%{" (String.append key (String ":" acc)))
      end
  | String c rest =>
      match st with
      | InText acc =>
          match rest with
          | String c' rest' =>
              if Ascii.eqb c "%" && Ascii.eqb c' "{"
              then flush acc ++ parse_template (InKey "") rest'
              else parse_template (InText (snoc acc c)) rest
          | "" => flush (snoc acc c)
          end
      | InKey acc =>
          if Ascii.eqb c "}" then Field acc None :: parse_template (InText "") rest
          else if Ascii.eqb c ":" then parse_template (InFormat acc "") rest
          else parse_template (InKey (snoc acc c)) rest
      | InFormat key acc =>
          if Ascii.eqb c "}" then Field key (Some acc) :: parse_template (InText "") rest
          else parse_template (InFormat key (snoc acc c)) rest
      end
  end.

Definition hover_pieces (fig : Figure) : list piece :=
  parse_template (InText "") (hovertemplate (data fig)).

End Plotly.

(** ** The loaded table *)

(** One row of [gdf]: the index label it was loaded with and its columns. *)
Record Row : Type :=
  { idx : Z;
    City : string;
    WARD : string;
    Area : string;
    Date : Datetime.date;
    PM25 : Q;
    geometry : Shapely.Geometry }.

(** [gdf['City'] == selected_city]. *)
Definition city_eq (df : list Row) (selected_city : string) : list bool :=
  map (fun r => String.eqb (City r) selected_city) df.

(** [gdf['Date'].dt.dayofyear == selected_day]. *)
Definition dayofyear_eq (df : list Row) (selected_day : Z) : list bool :=
  map (fun r => Z.eqb (Datetime.dayofyear (Date r)) selected_day) df.

(** [a & b] on boolean series. *)
Fixpoint series_and (a b : list bool) : list bool :=
  match a, b with
  | x :: a', y :: b' => (x && y) :: series_and a' b'
  | _, _ => []
  end.

(** [df[mask]]: the rows whose mask entry is true, as they are. *)
Fixpoint getitem (df : list Row) (mask : list bool) : list Row :=
  match df, mask with
  | r :: df', m :: mask' => if m then r :: getitem df' mask' else getitem df' mask'
  | _, _ => []
  end.

(** [Series.mean()]: undefined (NaN) on an empty series. *)
Definition mean (xs : list Q) : option Q :=
  match xs with
  | [] => None
  | _ => Some (foldr Qplus 0 xs / inject_Z (Z.of_nat (List.length xs)))%Q
  end.

(** [GeoSeries.__geo_interface__]: one feature per row, its id the row's
    index label (written out as text; for integer labels comparing the
    texts is comparing the labels). *)
Definition geo_interface (df : list Row) : list Plotly.Feature :=
  map (fun r => {| Plotly.feat_id := idx r; Plotly.feat_geometry := geometry r |}) df.

(** The selection predicate in words: same city, same day of the year. *)
Definition selected (selected_city : string) (selected_day : Z) (r : Row) : Prop :=
  City r = selected_city /\ Datetime.dayofyear (Date r) = selected_day.

(** The three outputs of the callback. *)
Record Outputs : Type :=
  { out_figure : Plotly.Figure; out_colorbar_src : string; out_selected_date : string }.

Definition hover_text : string :=
  "<b>Ward:</b> %{customdata[0]}<br><b>Area:</b> %{customdata[1]}<br><b>PM2.5:</b> %{customdata[2]:.2f}".

Definition colorbar_label : string := "PM 2.5(Âµg/m3)".

(** The months of the reference year 2023 and their lengths. *)
Definition MONTHS_2023 : list (string * Z) :=
  [("Jan", 31); ("Feb", 28); ("Mar", 31); ("Apr", 30); ("May", 31); ("Jun", 30);
   ("Jul", 31); ("Aug", 31); ("Sep", 30); ("Oct", 31); ("Nov", 30); ("Dec", 31)].

(** The [n]-th day of a year given by its months, counting from 1: the
    month it falls in and the day of that month. *)
Fixpoint nth_day (months : list (string * Z)) (n : Z) : option (string * Z) :=
  match months with
  | [] => None
  | (name, len) :: rest =>
      if n <=? len then Some (name, n) else nth_day rest (n - len)
  end.

(** The label the specification asks for: "Mon DD, YYYY" of the day
    [n - 1] days after January 1, 2023. *)
Definition label_2023 (n : Z) : option string :=
  match nth_day MONTHS_2023 n with
  | Some (name, dd) =>
      Some (String.append name
              (String.append " " (String.append (Datetime.pad2 dd) ", 2023")))
  | None => None
  end.

(** A date of the calendar of 2023. *)
Definition in_2023 (d : Datetime.date) : Prop :=
  Datetime.date_new 2023 (Datetime.month d) (Datetime.day d) = Ok d.

(** The legend figure as it stands when [update_graph] saves it: the
    hidden axes of [plt.subplots] and the axes of the colour bar. *)
Definition colorbar_figure : Pyplot.Figure :=
  {| Pyplot.figsize := (10, 6)%Q;
     Pyplot.fig_dpi := 1200%Q;
     Pyplot.fig_axes :=
       [ {| Pyplot.ax_visible := false; Pyplot.ax_colorbar := None |};
         {| Pyplot.ax_visible := true;
            Pyplot.ax_colorbar :=
              Some {| Pyplot.cb_mappable :=
                        {| Pyplot.sm_cmap := "jet";
                           Pyplot.sm_norm := {| Pyplot.vmin := 20%Q; Pyplot.vmax := 120%Q |};
                           Pyplot.sm_array := Some [] |};
                      Pyplot.cb_extend := Pyplot.ExtendBoth;
                      Pyplot.cb_label := colorbar_label;
                      Pyplot.cb_orientation := Pyplot.Vertical |} |} ] |}.

Definition png_options : Pyplot.SaveOptions :=
  {| Pyplot.sv_format := "png"; Pyplot.sv_bbox_inches := "tight";
     Pyplot.sv_pad_inches := 0%Q |}.

(** Reading a [data:] URI of a PNG back: the bytes behind the base64 payload. *)
Fixpoint strip_prefix (p s : string) : option string :=
  match p, s with
  | "", _ => Some s
  | String a p', String b s' => if Ascii.eqb a b then strip_prefix p' s' else None
  | _, _ => None
  end.

Definition png_of_data_uri (src : string) : option (list Byte.byte) :=
  match strip_prefix "data:image/png;base64," src with
  | Some payload => Base64.b64decode payload
  | None => None
  end.

(** The shape a row is meant to give: its label, boundary, value and
    hover fields. *)
Definition shape_of_row (r : Row) : Plotly.Shape :=
  {| Plotly.sh_key := idx r;
     Plotly.sh_geometry := geometry r;
     Plotly.sh_value := Some (PM25 r);
     Plotly.sh_hover := Some (WARD r, Area r, PM25 r) |}.

(** The trace point of a row: its label, value and hover fields. *)
Definition point_of_row (r : Row) : Plotly.Point :=
  {| Plotly.pt_location := idx r;
     Plotly.pt_z := Some (PM25 r);
     Plotly.pt_customdata := Some (WARD r, Area r, PM25 r) |}.

#[global] Instance selected_dec c d r : Decision (selected c d r).
Proof. unfold selected. apply _. Defined.

(** ** Start-up: the slider marks and the two controls *)

(** What module-level code may raise: [IndexError] from [[0]] and
    [.iloc[0]], or an error of the date arithmetic. *)
Inductive start_exn : Type :=
  | IndexError
  | DateError (e : exn).

Inductive started (A : Type) : Type :=
  | Started (a : A)
  | Aborted (e : start_exn).
Arguments Started {A} a.
Arguments Aborted {A} e.

#[global] Instance started_ret : MRet started := fun A a => Started a.

#[global] Instance started_bind : MBind started := fun A B k r =>
  match r with
  | Started a => k a
  | Aborted e => Aborted e
  end.

(** [range(a, b)]. *)
Definition py_range (a b : Z) : list Z :=
  map (fun k => a + Z.of_nat k) (seq 0 (Z.to_nat (b - a))).

(** [(datetime.date(2023, 1, 1) + datetime.timedelta(days=i - 1)).strftime(fmt)]. *)
Definition day_label (fmt : string) (i : Z) : result string :=
  d0 ← Datetime.date_new 2023 1 1;
  delta ← Datetime.timedelta (i - 1);
  d ← Datetime.date_add d0 delta;
  mret (Datetime.strftime fmt d).

Fixpoint collect {A} (rs : list (result A)) : result (list A) :=
  match rs with
  | [] => Ok []
  | r :: rs' =>
      match r with
      | Ok a =>
          match collect rs' with
          | Ok l => Ok (a :: l)
          | Raise e => Raise e
          end
      | Raise e => Raise e
      end
  end.

(** [month_marks]: the dict comprehension over [range(1, 365)], as the
    list of its items in insertion order. *)
Definition month_marks : result (list (Z * string)) :=
  collect (map (fun i => s ← day_label "%b %d" i; mret (i, s)) (py_range 1 365)).

(** ASCII white space as [str.split()] sees it. *)
Definition isspace (c : ascii) : bool :=
  let n := N_of_ascii c in
  ((9 <=? n) && (n <=? 13) || (28 <=? n) && (n <=? 32))%N.

Fixpoint take_token (s : string) : string :=
  match s with
  | "" => ""
  | String c rest => if isspace c then "" else String c (take_token rest)
  end.

(** The first item of [s.split()], if there is one. *)
Fixpoint first_token (s : string) : option string :=
  match s with
  | "" => None
  | String c rest =>
      if isspace c then first_token rest else Some (String c (take_token rest))
  end.

(** [s.split()[0]]. *)
Definition split_head (s : string) : started string :=
  match first_token s with
  | Some t => Started t
  | None => Aborted IndexError
  end.

(** [s.endswith(suffix)]. *)
Definition endswith (s suffix : string) : bool :=
  let n := String.length s in
  let m := String.length suffix in
  if (m <=? n)%nat then String.eqb (substring (n - m) m s) suffix else false.

Fixpoint first_of_month (items : list (Z * string)) : started (list (Z * string)) :=
  match items with
  | [] => Started []
  | (key, value) :: rest =>
      if endswith value " 01" then
        t ← split_head value;
        l ← first_of_month rest;
        mret ((key, t) :: l)
      else first_of_month rest
  end.

(** [unique_month_marks]: the items of [month_marks] whose label ends in
    [" 01"], each with the first word of its label. *)
Definition unique_month_marks : started (list (Z * string)) :=
  match month_marks with
  | Ok items => first_of_month items
  | Raise e => Aborted (DateError e)
  end.

(** [Series.unique()]: the values in order of first appearance. *)
Fixpoint unique_from (seen : list string) (l : list string) : list string :=
  match l with
  | [] => []
  | x :: l' =>
      if existsb (String.eqb x) seen then unique_from seen l'
      else x :: unique_from (x :: seen) l'
  end.

Definition unique (l : list string) : list string := unique_from [] l.

(** [Series.iloc[0]]. *)
Definition iloc0 (l : list string) : started string :=
  match l with
  | x :: _ => Started x
  | [] => Aborted IndexError
  end.

(** The properties of the two controls that the layout computes. *)
Record Controls : Type :=
  { dropdown_options : list (string * string);
    dropdown_value : string;
    slider_min : Z;
    slider_max : Z;
    slider_step : Z;
    slider_marks : list (Z * string);
    slider_value : Z }.

(** Equality of dates as a test. *)
Definition date_eqb (a b : Datetime.date) : bool :=
  Z.eqb (Datetime.year a) (Datetime.year b)
  && Z.eqb (Datetime.month a) (Datetime.month b)
  && Z.eqb (Datetime.day a) (Datetime.day b).

(** A character of a base64 text. *)
Definition b64_char (c : ascii) : Prop :=
  Base64.dec6 c <> None \/ c = Base64.pad.

Fixpoint string_chars (s : string) : list ascii :=
  match s with
  | "" => []
  | String c rest => c :: string_chars rest
  end.

(** ** A small table used to run the definitions *)

Module Sample.

Definition square (x y : Q) : Shapely.Geometry :=
  Shapely.Polygon [(x, y); (x + 1, y); (x + 1, y + 1); (x, y + 1); (x, y)]%Q [].

Definition row (i : Z) (city ward area : string) (m d : Z) (pm : Q) (x y : Q) : Row :=
  {| idx := i; City := city; WARD := ward; Area := area;
     Date := Datetime.mkdate 2023 m d; PM25 := pm; geometry := square x y |}.

Definition gdf : list Row :=
  [ row 0 "Howrah" "1" "Salkia" 1 1 35.5 88.3 22.6;
    row 1 "Howrah" "2" "Shibpur" 2 14 140 88.3 22.5;
    row 2 "Kolkata" "1" "Shyambazar" 2 14 64.25 88.4 22.6;
    row 3 "Kolkata" "2" "Behala" 2 14 18 88.3 22.5;
    row 4 "Kolkata" "1" "Shyambazar" 12 31 99.125 88.4 22.6 ]%Q.

(** A table in which two rows of one city and day carry the same index
    label, as a frame has after a concatenation that keeps the labels. *)
Definition twins : list Row :=
  [ row 7 "Kolkata" "1" "Shyambazar" 2 14 64.25 88.4 22.6;
    row 7 "Kolkata" "2" "Behala" 2 14 18 88.3 22.5 ]%Q.

(** Stand-ins for the two library functions the program calls. *)
Definition centroid (g : Shapely.Geometry) : Q * Q :=
  match g with
  | Shapely.Polygon ((x, y) :: _) _ => (x + 1 / 2, y + 1 / 2)%Q
  | _ => (0, 0)%Q
  end.

Definition savefig (fig : Pyplot.Figure) (o : Pyplot.SaveOptions) : list Byte.byte :=
  [Byte.x89; Byte.x50; Byte.x4e; Byte.x47; Byte.x0d; Byte.x0a; Byte.x1a; Byte.x0a;
   Byte.x00].

(** A registry in which an unrelated figure is already open. *)
Definition busy : Pyplot.Gcf :=
  [(3%N, {| Pyplot.figsize := (6.4, 4.8)%Q; Pyplot.fig_dpi := 100%Q;
            Pyplot.fig_axes := [] |})].

End Sample.

(** ** The dashboard *)

Section Dashboard.

(** shapely's centroid of a boundary, as (x, y) = (longitude, latitude). *)
Variable centroid : Shapely.Geometry -> Q * Q.

(** [Figure.savefig] into a byte buffer. *)
Variable savefig : Pyplot.Figure -> Pyplot.SaveOptions -> list Byte.byte.

(** The table loaded at start-up. *)
Variable gdf : list Row.

(** [generate_plot]: the call of [px.choropleth_mapbox] and the three
    updates that follow it.  The [labels] argument of the call only names
    the colour in hover text that [update_traces] replaces, so it has no
    field here. *)
Definition generate_plot (filtered_gdf : list Row) : Plotly.Figure :=
  let fig_map :=
    Plotly.choropleth_mapbox
      (geo_interface filtered_gdf)
      (map idx filtered_gdf)
      (map PM25 filtered_gdf)
      "jet"
      70%Q
      (20, 120)%Q
      "open-street-map"
      10.6%Q
      {| Plotly.lat := mean (map (fun r => snd (centroid (geometry r))) filtered_gdf);
         Plotly.lon := mean (map (fun r => fst (centroid (geometry r))) filtered_gdf) |}
      0.8%Q in
  let fig_map :=
    Plotly.update_traces fig_map
      (map (fun r => (WARD r, Area r, PM25 r)) filtered_gdf)
      hover_text in
  let fig_map := Plotly.update_layout_showscale fig_map false in
  let fig_map :=
    Plotly.update_layout_margin fig_map
      {| Plotly.mr := 5; Plotly.mt := 5; Plotly.ml := 10; Plotly.mb := 0 |} in
  fig_map.

(** The first line of [update_graph]. *)
Definition filtered_data (selected_city : string) (selected_day : Z) : list Row :=
  getitem gdf (series_and (city_eq gdf selected_city) (dayofyear_eq gdf selected_day)).

(** The date label of [update_graph]. *)
Definition selected_date (selected_day : Z) : result string :=
  d0 ← Datetime.date_new 2023 1 1;
  delta ← Datetime.timedelta (selected_day - 1);
  d ← Datetime.date_add d0 delta;
  mret (Datetime.strftime "%b %d, %Y" d).

Definition savefig_ref (fig : Pyplot.FigureRef) (o : Pyplot.SaveOptions)
    (plt : Pyplot.Gcf) : list Byte.byte :=
  match Pyplot.get_figure fig plt with
  | Some f => savefig f o
  | None => []
  end.

(** The callback, statement by statement; [plt] is pyplot's registry
    before and after. *)
Definition update_graph (selected_city : string) (selected_day : Z)
    (plt : Pyplot.Gcf) : result Outputs * Pyplot.Gcf :=
  let filtered := filtered_data selected_city selected_day in
  let fig := generate_plot filtered in
  let '((fig_colorbar, ax_colorbar), plt) := Pyplot.subplots (10, 6)%Q 1200%Q plt in
  let cmap := "jet" in
  let norm := {| Pyplot.vmin := 20%Q; Pyplot.vmax := 120%Q |} in
  let sm := {| Pyplot.sm_cmap := cmap; Pyplot.sm_norm := norm; Pyplot.sm_array := None |} in
  let sm := Pyplot.set_array sm [] in
  let plt := Pyplot.set_visible ax_colorbar false plt in
  let plt :=
    Pyplot.colorbar sm ax_colorbar Pyplot.ExtendBoth colorbar_label Pyplot.Vertical plt in
  let colorbar_img :=
    savefig_ref fig_colorbar
      {| Pyplot.sv_format := "png"; Pyplot.sv_bbox_inches := "tight";
         Pyplot.sv_pad_inches := 0%Q |}
      plt in
  let plt := Pyplot.close fig_colorbar plt in
  let colorbar_img_str :=
    String.append "data:image/png;base64," (Base64.b64encode colorbar_img) in
  (date_str ← selected_date selected_day;
   mret {| out_figure := fig;
           out_colorbar_src := colorbar_img_str;
           out_selected_date := date_str |},
   plt).

(** The bytes of the saved legend and the source string built from them. *)
Definition colorbar_png : list Byte.byte := savefig colorbar_figure png_options.

Definition colorbar_src : string :=
  String.append "data:image/png;base64," (Base64.b64encode colorbar_png).

(** The controls of [app.layout], after the marks of lines 57 to 60:
    the options and the default of the city dropdown, and the day slider. *)
Definition layout_controls : started Controls :=
  marks ← unique_month_marks;
  let options := map (fun city => (city, city)) (unique (map City gdf)) in
  value ← iloc0 (map City gdf);
  mret {| dropdown_options := options;
          dropdown_value := value;
          slider_min := 1;
          slider_max := 365;
          slider_step := 1;
          slider_marks := marks;
          slider_value := 1 |}.

(** ** The filter *)

Lemma series_and_map {A} (f g : A -> bool) (l : list A) :
  series_and (map f l) (map g l) = map (fun x => f x && g x) l.
Proof. induction l as [|x l IH]; simpl; [reflexivity | now rewrite IH]. Qed.

Lemma getitem_map (f : Row -> bool) (df : list Row) :
  getitem df (map f df) = List.filter f df.
Proof.
  induction df as [|r df IH]; simpl; [reflexivity|].
  destruct (f r); now rewrite IH.
Qed.

Lemma getitem_sublist (df : list Row) (mask : list bool) :
  getitem df mask `sublist_of` df.
Proof.
  revert mask. induction df as [|r df IH]; intros [|m mask]; simpl;
    try apply sublist_nil_l.
  destruct m; [apply sublist_skip | apply sublist_cons]; apply IH.
Qed.

Lemma mask_selected (c : string) (d : Z) (r : Row) :
  String.eqb (City r) c && Z.eqb (Datetime.dayofyear (Date r)) d = true
  <-> selected c d r.
Proof.
  unfold selected.
  rewrite andb_true_iff, String.eqb_eq, Z.eqb_eq. reflexivity.
Qed.

Lemma filtered_data_filter (c : string) (d : Z) :
  filtered_data c d
  = List.filter
      (fun r => String.eqb (City r) c && Z.eqb (Datetime.dayofyear (Date r)) d) gdf.
Proof.
  unfold filtered_data, city_eq, dayofyear_eq.
  rewrite series_and_map. apply getitem_map.
Qed.

(** C1: the filter returns exactly the rows of the table whose city is
    the selected city and whose date falls on the selected day of the
    year; as a list it is the table filtered by that predicate. *)
Theorem filter_exact (c : string) (d : Z) :
  (forall r, In r (filtered_data c d) <-> In r gdf /\ selected c d r)
  /\ filtered_data c d = List.filter (fun r => bool_decide (selected c d r)) gdf.
Proof.
  rewrite filtered_data_filter. split.
  - intros r. rewrite filter_In, mask_selected. reflexivity.
  - apply filter_ext. intros r.
    apply eq_true_iff_eq. rewrite mask_selected, bool_decide_eq_true. reflexivity.
Qed.

(** ** Checking a decidable property on a finite range *)

Lemma Z_range_forallb (P : Z -> bool) (lo : Z) (n : nat) :
  forallb P (map (fun i => lo + Z.of_nat i) (seq 0 n)) = true ->
  forall d, lo <= d < lo + Z.of_nat n -> P d = true.
Proof.
  intros Hall d Hd. rewrite forallb_forall in Hall. apply Hall.
  apply in_map_iff. exists (Z.to_nat (d - lo)). split; [lia|].
  apply in_seq. lia.
Qed.

Lemma N_range_forallb (P : N -> bool) (n : nat) :
  forallb P (map N.of_nat (seq 0 n)) = true ->
  forall k, (k < N.of_nat n)%N -> P k = true.
Proof.
  intros Hall k Hk. rewrite forallb_forall in Hall. apply Hall.
  apply in_map_iff. exists (N.to_nat k). split; [lia|].
  apply in_seq. lia.
Qed.

(** ** Dates *)

Lemma selected_date_label (d : Z) :
  1 <= d <= 365 ->
  exists s, label_2023 d = Some s /\ selected_date d = Ok s.
Proof.
  intros Hd.
  pose (chk := fun d =>
    match label_2023 d, selected_date d with
    | Some s, Ok s' => String.eqb s s'
    | _, _ => false
    end).
  assert (Hall : chk d = true).
  { apply (Z_range_forallb chk 1 365); [vm_compute; reflexivity | lia]. }
  unfold chk in Hall.
  destruct (label_2023 d) as [s|]; [|discriminate].
  destruct (selected_date d) as [s'|]; [|discriminate].
  apply String.eqb_eq in Hall. subst s'. exists s. auto.
Qed.

(** The date behind the label falls on the selected day of the year, the
    key the filter compares with. *)
Lemma selected_day_dayofyear (d : Z) :
  1 <= d <= 365 ->
  exists dt, Datetime.date_add (Datetime.mkdate 2023 1 1) (d - 1) = Ok dt
             /\ Datetime.year dt = 2023 /\ Datetime.dayofyear dt = d.
Proof.
  intros Hd.
  pose (chk := fun d =>
    match Datetime.date_add (Datetime.mkdate 2023 1 1) (d - 1) with
    | Ok dt => Z.eqb (Datetime.year dt) 2023 && Z.eqb (Datetime.dayofyear dt) d
    | Raise _ => false
    end).
  assert (Hall : chk d = true).
  { apply (Z_range_forallb chk 1 365); [vm_compute; reflexivity | lia]. }
  unfold chk in Hall.
  destruct (Datetime.date_add _ _) as [dt|]; [|discriminate].
  apply andb_true_iff in Hall as [Hy Hdoy].
  apply Z.eqb_eq in Hy, Hdoy. exists dt. auto.
Qed.

Lemma dayofyear_2023_le (dt : Datetime.date) :
  in_2023 dt -> 1 <= Datetime.dayofyear dt <= 365.
Proof.
  unfold in_2023, Datetime.date_new. intros H.
  destruct (_ && _) eqn:E in H; [|discriminate].
  injection H as Hdt.
  repeat (apply andb_true_iff in E as [E ?]).
  destruct dt as [y m dd]; simpl in *. injection Hdt as Hy. subst y.
  unfold Datetime.dayofyear; simpl.
  assert (Hm : m = 1 \/ m = 2 \/ m = 3 \/ m = 4 \/ m = 5 \/ m = 6 \/ m = 7
               \/ m = 8 \/ m = 9 \/ m = 10 \/ m = 11 \/ m = 12) by lia.
  assert (Hlen : forall k, Datetime.days_in_month 2023 k
                           = Datetime.tbl Datetime.DAYS_IN_MONTH k).
  { intros k. unfold Datetime.days_in_month.
    replace (Datetime.is_leap 2023) with false by reflexivity.
    now rewrite andb_false_r. }
  rewrite Hlen in H. unfold Datetime.days_before_month.
  replace (Datetime.is_leap 2023) with false by reflexivity.
  rewrite andb_false_r.
  repeat (destruct Hm as [Hm|Hm];
          [subst m; cbv [Datetime.tbl Datetime.DAYS_IN_MONTH Datetime.DAYS_BEFORE_MONTH
                         Z.to_nat Pos.to_nat Pos.iter_op Init.Nat.add nth] in *; lia|]).
  subst m; cbv [Datetime.tbl Datetime.DAYS_IN_MONTH Datetime.DAYS_BEFORE_MONTH
                Z.to_nat Pos.to_nat Pos.iter_op Init.Nat.add nth] in *; lia.
Qed.

(** ** Base64 *)

Lemma enc6_dec6 (n : N) :
  (n < 64)%N ->
  Base64.dec6 (Base64.enc6 n) = Some n
  /\ Ascii.eqb (Base64.enc6 n) Base64.pad = false.
Proof.
  intros Hn.
  pose (chk := fun n =>
    match Base64.dec6 (Base64.enc6 n) with
    | Some m => N.eqb m n && negb (Ascii.eqb (Base64.enc6 n) Base64.pad)
    | None => false
    end).
  assert (Hall : chk n = true).
  { apply (N_range_forallb chk 64); [vm_compute; reflexivity | exact Hn]. }
  unfold chk in Hall.
  destruct (Base64.dec6 (Base64.enc6 n)) as [m|]; [|discriminate].
  apply andb_true_iff in Hall as [Hm Hp].
  apply N.eqb_eq in Hm. apply negb_true_iff in Hp. subst m. auto.
Qed.

Lemma byte_of_to_N (b : Byte.byte) : Base64.byte_of (Byte.to_N b) = b.
Proof. unfold Base64.byte_of. now rewrite Byte.of_to_N. Qed.

Lemma b64decode_group (c1 c2 c3 c4 : ascii) (rest : string) (x1 x2 x3 x4 : N) :
  Base64.dec6 c1 = Some x1 -> Base64.dec6 c2 = Some x2 ->
  Base64.dec6 c3 = Some x3 -> Base64.dec6 c4 = Some x4 ->
  Ascii.eqb c3 Base64.pad = false -> Ascii.eqb c4 Base64.pad = false ->
  Base64.b64decode (String c1 (String c2 (String c3 (String c4 rest))))
  = match Base64.b64decode rest with
    | Some bs =>
        Some (Base64.byte_of (x1 * 4 + x2 / 16)
              :: Base64.byte_of (x2 mod 16 * 16 + x3 / 4)
              :: Base64.byte_of (x3 mod 4 * 64 + x4) :: bs)
    | None => None
    end%N.
Proof.
  intros H1 H2 H3 H4 P3 P4. cbn [Base64.b64decode].
  rewrite H1, H2, H3, H4, P3, P4. reflexivity.
Qed.

Ltac byte_arith :=
  zify; Z.to_euclidean_division_equations; lia.

(** Recognise the arithmetic that reassembles byte [b] and fold it. *)
Ltac fold_byte b :=
  match goal with
  | |- context [Base64.byte_of ?e] =>
      lazymatch e with
      | Byte.to_N _ => fail
      | _ => replace e with (Byte.to_N b) by byte_arith
      end
  end;
  rewrite (byte_of_to_N b).

Lemma list_ind3 {A} (P : list A -> Prop) :
  P [] -> (forall a, P [a]) -> (forall a b, P [a; b]) ->
  (forall a b c l, P l -> P (a :: b :: c :: l)) ->
  forall l, P l.
Proof.
  intros H0 H1 H2 H3.
  fix IH 1.
  intros [|a [|b [|c l]]]; [exact H0 | apply H1 | apply H2 | apply H3, IH].
Qed.

(** Decoding what [b64encode] wrote gives the bytes back. *)
Lemma b64decode_b64encode (bs : list Byte.byte) :
  Base64.b64decode (Base64.b64encode bs) = Some bs.
Proof.
  induction bs as [|a|a b|a b c l IH] using list_ind3.
  - reflexivity.
  - pose proof (Byte.to_N_bounded a) as Ha.
    cbn [Base64.b64encode Base64.b64decode].
    destruct (enc6_dec6 (Byte.to_N a / 4)) as [-> _]; [byte_arith|].
    destruct (enc6_dec6 (Byte.to_N a mod 4 * 16)) as [-> _]; [byte_arith|].
    cbn. fold_byte a. reflexivity.
  - pose proof (Byte.to_N_bounded a) as Ha.
    pose proof (Byte.to_N_bounded b) as Hb.
    cbn [Base64.b64encode Base64.b64decode].
    destruct (enc6_dec6 (Byte.to_N a / 4)) as [-> _]; [byte_arith|].
    destruct (enc6_dec6 (Byte.to_N a mod 4 * 16 + Byte.to_N b / 16)) as [-> _];
      [byte_arith|].
    destruct (enc6_dec6 (Byte.to_N b mod 16 * 4)) as [-> ->]; [byte_arith|].
    cbn. fold_byte a. fold_byte b. reflexivity.
  - pose proof (Byte.to_N_bounded a) as Ha.
    pose proof (Byte.to_N_bounded b) as Hb.
    pose proof (Byte.to_N_bounded c) as Hc.
    cbn [Base64.b64encode].
    destruct (enc6_dec6 (Byte.to_N a / 4)) as [E1 _]; [byte_arith|].
    destruct (enc6_dec6 (Byte.to_N a mod 4 * 16 + Byte.to_N b / 16)) as [E2 _];
      [byte_arith|].
    destruct (enc6_dec6 (Byte.to_N b mod 16 * 4 + Byte.to_N c / 64)) as [E3 P3];
      [byte_arith|].
    destruct (enc6_dec6 (Byte.to_N c mod 64)) as [E4 P4]; [byte_arith|].
    rewrite (b64decode_group _ _ _ _ _ _ _ _ _ E1 E2 E3 E4 P3 P4), IH.
    fold_byte a. fold_byte b. fold_byte c. reflexivity.
Qed.

(** ** The figure registry *)

Lemma num_le_max (g : Pyplot.Gcf) (e : N * Pyplot.Figure) :
  In e g -> (fst e <= foldr N.max 0 (map fst g))%N.
Proof.
  induction g as [|e' g IH]; simpl; [tauto|].
  intros [->|Hin]; [lia|]. specialize (IH Hin). lia.
Qed.

(** The number [plt.subplots] picks is not in use. *)
Lemma next_num_fresh (g : Pyplot.Gcf) (e : N * Pyplot.Figure) :
  In e g -> N.eqb (fst e) (Pyplot.next_num g) = false.
Proof.
  intros Hin. apply N.eqb_neq. pose proof (num_le_max g e Hin) as Hle.
  unfold Pyplot.next_num. destruct g; [destruct Hin | lia].
Qed.

Section Fresh.

Variables (g : Pyplot.Gcf) (num : N) (fig : Pyplot.Figure).
Hypothesis Hfresh : forall e, In e g -> N.eqb (fst e) num = false.

Lemma get_figure_new : Pyplot.get_figure num (g ++ [(num, fig)]) = Some fig.
Proof.
  unfold Pyplot.get_figure. induction g as [|e g' IH]; simpl.
  - now rewrite N.eqb_refl.
  - rewrite (Hfresh e) by now left.
    apply IH. intros e' He'. apply Hfresh. now right.
Qed.

Lemma update_figure_new (f : Pyplot.Figure -> Pyplot.Figure) :
  Pyplot.update_figure num f (g ++ [(num, fig)]) = g ++ [(num, f fig)].
Proof.
  unfold Pyplot.update_figure. induction g as [|e g' IH]; simpl.
  - now rewrite N.eqb_refl.
  - rewrite (Hfresh e) by now left. f_equal.
    apply IH. intros e' He'. apply Hfresh. now right.
Qed.

Lemma close_new : Pyplot.close num (g ++ [(num, fig)]) = g.
Proof.
  unfold Pyplot.close. induction g as [|e g' IH]; simpl.
  - now rewrite N.eqb_refl.
  - rewrite (Hfresh e) by now left. simpl. f_equal.
    apply IH. intros e' He'. apply Hfresh. now right.
Qed.

End Fresh.

(** What a run of the callback amounts to: the figure of the filtered
    rows, the legend source, the date label if the date exists; the
    registry is left as it was found. *)
Lemma update_graph_run (c : string) (d : Z) (plt : Pyplot.Gcf) :
  update_graph c d plt
  = (date_str ← selected_date d;
     mret {| out_figure := generate_plot (filtered_data c d);
             out_colorbar_src := colorbar_src;
             out_selected_date := date_str |},
     plt).
Proof.
  unfold update_graph, Pyplot.subplots, Pyplot.set_visible, Pyplot.colorbar,
    savefig_ref.
  cbn [fst snd].
  pose proof (next_num_fresh plt) as Hfresh.
  rewrite !(update_figure_new plt _ _ Hfresh).
  rewrite (get_figure_new plt _ _ Hfresh), (close_new plt _ _ Hfresh).
  reflexivity.
Qed.

Lemma update_graph_ok (c : string) (d : Z) (plt : Pyplot.Gcf) :
  1 <= d <= 365 ->
  exists s,
    update_graph c d plt
    = (Ok {| out_figure := generate_plot (filtered_data c d);
             out_colorbar_src := colorbar_src;
             out_selected_date := s |}, plt).
Proof.
  intros Hd. rewrite update_graph_run.
  destruct (selected_date_label d Hd) as (s & _ & ->).
  exists s. reflexivity.
Qed.

Lemma update_graph_legend (c : string) (d : Z) (plt plt' : Pyplot.Gcf) (out : Outputs) :
  update_graph c d plt = (Ok out, plt') ->
  out_figure out = generate_plot (filtered_data c d)
  /\ out_colorbar_src out = colorbar_src /\ plt' = plt.
Proof.
  rewrite update_graph_run. intros H. injection H as Hout Hplt.
  destruct (selected_date d) as [s|e]; [|discriminate].
  injection Hout as <-. auto.
Qed.

(** ** Empty selections and row order *)

Lemma filter_none {A} (f : A -> bool) (l : list A) :
  (forall x, In x l -> f x = false) -> List.filter f l = [].
Proof.
  induction l as [|x l IH]; simpl; intros H; [reflexivity|].
  rewrite (H x) by now left. apply IH. intros y Hy. apply H. now right.
Qed.

Lemma no_match_empty (c : string) (d : Z) :
  (forall r, In r gdf -> ~ selected c d r) -> filtered_data c d = [].
Proof.
  intros Hno. rewrite filtered_data_filter. apply filter_none.
  intros r Hr. apply not_true_is_false. rewrite mask_selected. now apply Hno.
Qed.

(** C2: a selection that no row matches gives the empty subset, in
    particular a city that is not in the table, and day 366 when every
    date lies in 2023; the filter is a function of the table and the
    selection, and a run of the callback leaves the figure registry, the
    only state it touches, as it found it. *)
Theorem filter_no_match (c : string) (d : Z) (plt : Pyplot.Gcf) :
  ((forall r, In r gdf -> ~ selected c d r) -> filtered_data c d = [])
  /\ (~ In c (map City gdf) -> filtered_data c d = [])
  /\ ((forall r, In r gdf -> in_2023 (Date r)) -> filtered_data c 366 = [])
  /\ snd (update_graph c d plt) = plt.
Proof.
  split; [apply no_match_empty|]. split; [|split].
  - intros Hc. apply no_match_empty. intros r Hr [Hcity _].
    apply Hc. rewrite <- Hcity. now apply in_map.
  - intros Hyear. apply no_match_empty. intros r Hr [_ Hday].
    pose proof (dayofyear_2023_le _ (Hyear r Hr)). lia.
  - now rewrite update_graph_run.
Qed.

(** C10: the filtered subset is a subsequence of the table, so rows keep
    their relative order and the index label they were loaded with, and
    these labels are the location keys and the feature ids handed to the
    map. *)
Theorem filter_keeps_order_and_labels (c : string) (d : Z) :
  filtered_data c d `sublist_of` gdf
  /\ map idx (filtered_data c d) `sublist_of` map idx gdf
  /\ Plotly.locations (Plotly.data (generate_plot (filtered_data c d)))
     = map idx (filtered_data c d)
  /\ map Plotly.feat_id
       (Plotly.geojson (Plotly.data (generate_plot (filtered_data c d))))
     = map idx (filtered_data c d).
Proof.
  assert (Hsub : filtered_data c d `sublist_of` gdf) by apply getitem_sublist.
  split; [exact Hsub|]. split; [now apply (fmap_sublist idx)|]. split; [reflexivity|].
  simpl. unfold geo_interface. rewrite map_map. reflexivity.
Qed.

(** ** The date label *)

(** C4: for a day of the year between 1 and 365 the label is the month
    name, the two-digit day and the year of the day that many days into
    2023, counting January 1 as day 1; day 1 gives January 1, day 365
    December 31 and day 45 "Feb 14, 2023". *)
Theorem date_label_2023 (d : Z) (Hd : 1 <= d <= 365) :
  (exists name dd,
      nth_day MONTHS_2023 d = Some (name, dd)
      /\ selected_date d
         = Ok (String.append name
                 (String.append " " (String.append (Datetime.pad2 dd) ", 2023"))))
  /\ selected_date 1 = Ok "Jan 01, 2023"
  /\ selected_date 365 = Ok "Dec 31, 2023"
  /\ selected_date 45 = Ok "Feb 14, 2023".
Proof.
  split; [|repeat split; reflexivity].
  destruct (selected_date_label d Hd) as (s & Hs & Hsel).
  unfold label_2023 in Hs.
  destruct (nth_day MONTHS_2023 d) as [[name dd]|]; [|discriminate].
  injection Hs as <-. exists name, dd. auto.
Qed.

(** ** The legend *)

(** C6: two runs of the callback, for any two selections of a city and a
    day of the slider and whatever figures pyplot has open, both complete
    and give the same legend source: the legend depends neither on the
    selection nor on the state it is drawn in. *)
Theorem legend_same_for_all_selections
    (c1 c2 : string) (d1 d2 : Z) (plt1 plt2 : Pyplot.Gcf)
    (Hd1 : 1 <= d1 <= 365) (Hd2 : 1 <= d2 <= 365) :
  exists out1 out2,
    update_graph c1 d1 plt1 = (Ok out1, plt1)
    /\ update_graph c2 d2 plt2 = (Ok out2, plt2)
    /\ out_colorbar_src out1 = out_colorbar_src out2.
Proof.
  destruct (update_graph_ok c1 d1 plt1 Hd1) as [s1 H1].
  destruct (update_graph_ok c2 d2 plt2 Hd2) as [s2 H2].
  do 2 eexists. split; [exact H1|]. split; [exact H2|]. reflexivity.
Qed.

Lemma strip_prefix_app (p s : string) : strip_prefix p (String.append p s) = Some s.
Proof.
  induction p as [|a p IH]; simpl; [now destruct s|].
  now rewrite Ascii.eqb_refl.
Qed.

(** C7: for every selection of a city and a day of the slider the run
    completes, and its legend source is a [data:image/png;base64,] URI whose
    payload decodes to the bytes pyplot saved in PNG format; the saved
    figure holds, next to the hidden axes, one vertical colour bar over jet
    and [20, 120], extended at both ends and labelled with the quantity and
    its unit. *)
Theorem legend_inline_png (c : string) (d : Z) (plt : Pyplot.Gcf)
    (Hd : 1 <= d <= 365) :
  exists (out : Outputs) (fig : Pyplot.Figure) (hidden bar : Pyplot.Axes)
         (cb : Pyplot.Colorbar),
    update_graph c d plt = (Ok out, plt)
    /\ out_colorbar_src out
       = String.append "data:image/png;base64,"
           (Base64.b64encode (savefig fig png_options))
    /\ png_of_data_uri (out_colorbar_src out) = Some (savefig fig png_options)
    /\ Pyplot.sv_format png_options = "png"
    /\ Pyplot.fig_axes fig = [hidden; bar]
    /\ Pyplot.ax_visible hidden = false
    /\ Pyplot.ax_colorbar hidden = None
    /\ Pyplot.ax_visible bar = true
    /\ Pyplot.ax_colorbar bar = Some cb
    /\ Pyplot.cb_orientation cb = Pyplot.Vertical
    /\ Pyplot.cb_extend cb = Pyplot.ExtendBoth
    /\ Pyplot.cb_label cb = "PM 2.5(Âµg/m3)"
    /\ Pyplot.sm_cmap (Pyplot.cb_mappable cb) = "jet"
    /\ Pyplot.sm_norm (Pyplot.cb_mappable cb)
       = {| Pyplot.vmin := 20%Q; Pyplot.vmax := 120%Q |}.
Proof.
  destruct (update_graph_ok c d plt Hd) as [s Hrun].
  eexists. exists colorbar_figure. do 3 eexists.
  split; [exact Hrun|].
  cbn [out_colorbar_src]. unfold colorbar_src, colorbar_png, png_of_data_uri.
  rewrite strip_prefix_app, b64decode_b64encode.
  repeat split; reflexivity.
Qed.

(** ** The map figure *)

Lemma points_of_rows (rows : list Row) :
  Plotly.points_of (map idx rows) (map PM25 rows)
    (map (fun r => (WARD r, Area r, PM25 r)) rows)
  = map point_of_row rows.
Proof. induction rows as [|r rows IH]; simpl; [reflexivity | now rewrite IH]. Qed.

Lemma polygons_generate_plot (rows : list Row) :
  Plotly.polygons (generate_plot rows)
  = omap (Plotly.shape_of (geo_interface rows)) (map point_of_row rows).
Proof.
  unfold Plotly.polygons, Plotly.points. simpl. now rewrite points_of_rows.
Qed.

(** With distinct labels the feature found is the row's own boundary. *)
Lemma find_feature_own (rows : list Row) (r : Row) :
  List.NoDup (map idx rows) -> In r rows ->
  Plotly.find_feature (geo_interface rows) (idx r) = Some (geometry r).
Proof.
  unfold Plotly.find_feature.
  induction rows as [|r' rows IH]; simpl; [tauto|].
  intros Hnd Hin. inversion Hnd as [|? ? Hnotin Hnd']; subst.
  destruct Hin as [->|Hin].
  - now rewrite Z.eqb_refl.
  - destruct (Z.eqb_spec (idx r') (idx r)) as [E|NE]; [|now apply IH].
    exfalso. apply Hnotin. rewrite E. now apply in_map.
Qed.

Lemma omap_rows_eq (gj : list Plotly.Feature) (f : Row -> Plotly.Shape)
    (rows : list Row) :
  (forall r, In r rows -> Plotly.shape_of gj (point_of_row r) = Some (f r)) ->
  omap (Plotly.shape_of gj) (map point_of_row rows) = map f rows.
Proof.
  induction rows as [|r rows IH]; intros H; [reflexivity|].
  simpl. rewrite (H r) by now left. f_equal.
  apply IH. intros r' Hr'. apply H. now right.
Qed.

(** C3: rendering the empty subset gives a figure with no locations, no
    features and no polygons, whose centre is undefined; a run of the
    callback whose filter found nothing returns that figure. *)
Theorem render_empty_subset :
  Plotly.polygons (generate_plot []) = []
  /\ Plotly.locations (Plotly.data (generate_plot [])) = []
  /\ Plotly.geojson (Plotly.data (generate_plot [])) = []
  /\ Plotly.center (Plotly.mapbox (generate_plot []))
     = {| Plotly.lat := None; Plotly.lon := None |}
  /\ forall c d plt s,
       filtered_data c d = [] -> selected_date d = Ok s ->
       exists out,
         update_graph c d plt = (Ok out, plt)
         /\ Plotly.polygons (out_figure out) = [].
Proof.
  repeat split.
  intros c d plt s Hempty Hs. rewrite update_graph_run, Hs, Hempty.
  eexists. split; reflexivity.
Qed.

(** C8: the trace has one point per row of the subset, in row order,
    keyed by the row's index label and carrying the row's value and its
    ward, area name and value as hover fields, and the GeoJSON has one
    feature per row under the same key; the hover template shows the three
    fields in that order, the value with format [.2f]; with distinct labels
    in the subset the map therefore draws one polygon per row, each with the
    boundary and the hover fields of its own row. *)
Theorem one_polygon_per_record (rows : list Row) :
  Plotly.points (Plotly.data (generate_plot rows)) = map point_of_row rows
  /\ Plotly.geojson (Plotly.data (generate_plot rows))
     = map (fun r => {| Plotly.feat_id := idx r; Plotly.feat_geometry := geometry r |}) rows
  /\ Plotly.hover_pieces (generate_plot rows)
     = [ Plotly.Text "<b>Ward:</b> "; Plotly.Field "customdata[0]" None;
         Plotly.Text "<br><b>Area:</b> "; Plotly.Field "customdata[1]" None;
         Plotly.Text "<br><b>PM2.5:</b> ";
         Plotly.Field "customdata[2]" (Some ".2f") ]
  /\ (List.NoDup (map idx rows) ->
      Plotly.polygons (generate_plot rows) = map shape_of_row rows
      /\ List.length (Plotly.polygons (generate_plot rows)) = List.length rows).
Proof.
  split; [apply points_of_rows|]. split; [reflexivity|].
  split; [vm_compute; reflexivity|].
  intros Hnd.
  assert (Hpoly : Plotly.polygons (generate_plot rows) = map shape_of_row rows).
  { rewrite polygons_generate_plot. apply omap_rows_eq. intros r Hr.
    unfold Plotly.shape_of. cbn [Plotly.pt_location point_of_row].
    now rewrite (find_feature_own rows r Hnd Hr). }
  split; [exact Hpoly|]. rewrite Hpoly. apply length_map.
Qed.

Lemma mean_map (f : Row -> Q) (rows : list Row) :
  rows <> [] ->
  mean (map f rows)
  = Some (foldr Qplus 0 (map f rows) / inject_Z (Z.of_nat (List.length rows)))%Q.
Proof.
  intros Hne. rewrite <- (length_map f rows).
  destruct rows as [|r rows]; [congruence | reflexivity].
Qed.

(** C9: for a non-empty subset the map uses the open-street-map style
    and zoom 10.6, its centre is the mean latitude and the mean longitude
    of the centroids of the rows it is given, and the colour scale is not
    shown on the map. *)
Theorem map_frame (rows : list Row) (Hne : rows <> []) :
  Plotly.style (Plotly.mapbox (generate_plot rows)) = "open-street-map"
  /\ Plotly.zoom (Plotly.mapbox (generate_plot rows)) = 10.6%Q
  /\ Plotly.lat (Plotly.center (Plotly.mapbox (generate_plot rows)))
     = Some (foldr Qplus 0 (map (fun r => snd (centroid (geometry r))) rows)
             / inject_Z (Z.of_nat (List.length rows)))%Q
  /\ Plotly.lon (Plotly.center (Plotly.mapbox (generate_plot rows)))
     = Some (foldr Qplus 0 (map (fun r => fst (centroid (geometry r))) rows)
             / inject_Z (Z.of_nat (List.length rows)))%Q
  /\ Plotly.showscale (Plotly.coloraxis (generate_plot rows)) = false.
Proof.
  cbn [generate_plot Plotly.update_layout_margin Plotly.update_layout_showscale
       Plotly.update_traces Plotly.choropleth_mapbox Plotly.mapbox Plotly.coloraxis
       Plotly.style Plotly.zoom Plotly.center Plotly.lat Plotly.lon Plotly.showscale].
  rewrite !mean_map by exact Hne. repeat split.
Qed.

(** ** Further properties of the callback *)

Lemma selected_date_unfold (d : Z) :
  selected_date d
  = if (-999999999 <=? d - 1) && (d - 1 <=? 999999999) then
      if (0 <? 738521 + (d - 1)) && (738521 + (d - 1) <=? 3652059)
      then Ok (Datetime.strftime "%b %d, %Y" (Datetime.ord2ymd (738521 + (d - 1))))
      else Raise OverflowError
    else Raise OverflowError.
Proof.
  unfold selected_date.
  change (Datetime.date_new 2023 1 1) with (Ok (Datetime.mkdate 2023 1 1)).
  cbn [mbind result_bind]. unfold Datetime.timedelta.
  destruct ((-999999999 <=? d - 1) && (d - 1 <=? 999999999)); [|reflexivity].
  cbn [mbind result_bind]. unfold Datetime.date_add.
  change (Datetime.toordinal (Datetime.mkdate 2023 1 1)) with 738521.
  unfold Datetime.MAXORDINAL.
  destruct ((0 <? 738521 + (d - 1)) && (738521 + (d - 1) <=? 3652059)); reflexivity.
Qed.

Lemma selected_date_in_range (d : Z) :
  -738519 <= d <= 2913539 ->
  selected_date d
  = Ok (Datetime.strftime "%b %d, %Y" (Datetime.ord2ymd (738520 + d))).
Proof.
  intros Hd. rewrite selected_date_unfold.
  replace ((-999999999 <=? d - 1) && (d - 1 <=? 999999999)) with true
    by (symmetry; apply andb_true_iff; split; apply Z.leb_le; lia).
  replace ((0 <? 738521 + (d - 1)) && (738521 + (d - 1) <=? 3652059)) with true
    by (symmetry; apply andb_true_iff; split; [apply Z.ltb_lt | apply Z.leb_le]; lia).
  replace (738521 + (d - 1)) with (738520 + d) by lia. reflexivity.
Qed.

Lemma selected_date_out_of_range (d : Z) :
  ~ (-738519 <= d <= 2913539) -> selected_date d = Raise OverflowError.
Proof.
  intros Hd. rewrite selected_date_unfold.
  destruct ((-999999999 <=? d - 1) && (d - 1 <=? 999999999)); [|reflexivity].
  destruct ((0 <? 738521 + (d - 1)) && (738521 + (d - 1) <=? 3652059)) eqn:E;
    [|reflexivity].
  apply andb_true_iff in E as [E1 E2].
  apply Z.ltb_lt in E1. apply Z.leb_le in E2. lia.
Qed.

(** X1: the callback returns its three outputs exactly for the days from
    -738519 to 2913539, those for which the date still lies in the
    calendar; for any other day it raises [OverflowError], and in both
    cases pyplot's registry is as before. *)
Theorem callback_day_range (c : string) (d : Z) (plt : Pyplot.Gcf) :
  (-738519 <= d <= 2913539 ->
   exists out,
     update_graph c d plt = (Ok out, plt)
     /\ out_figure out = generate_plot (filtered_data c d))
  /\ (~ (-738519 <= d <= 2913539) ->
      update_graph c d plt = (Raise OverflowError, plt)).
Proof.
  rewrite update_graph_run. split; intros Hd.
  - rewrite (selected_date_in_range d Hd). eexists. split; reflexivity.
  - now rewrite (selected_date_out_of_range d Hd).
Qed.

Lemma date_eqb_eq (a b : Datetime.date) : date_eqb a b = true -> a = b.
Proof.
  unfold date_eqb. intros H.
  apply andb_true_iff in H as [H Hd]. apply andb_true_iff in H as [Hy Hm].
  apply Z.eqb_eq in Hy, Hm, Hd. destruct a, b; simpl in *. congruence.
Qed.

Lemma in_2023_inv (dt : Datetime.date) :
  in_2023 dt ->
  dt = Datetime.mkdate 2023 (Datetime.month dt) (Datetime.day dt)
  /\ 1 <= Datetime.month dt <= 12
  /\ 1 <= Datetime.day dt <= 31
  /\ (Datetime.day dt <=? Datetime.days_in_month 2023 (Datetime.month dt)) = true.
Proof.
  unfold in_2023, Datetime.date_new. intros H.
  destruct (_ && _) eqn:E in H; [|discriminate].
  injection H as Hdt.
  repeat (apply andb_true_iff in E as [E ?]).
  split; [now symmetry|]. split; [lia|]. split; [|assumption].
  assert (Datetime.days_in_month 2023 (Datetime.month dt) <= 31); [|lia].
  assert (Hm : 1 <= Datetime.month dt <= 12) by lia.
  pose (chk := fun m => Datetime.days_in_month 2023 m <=? 31).
  assert (Hall : chk (Datetime.month dt) = true).
  { apply (Z_range_forallb chk 1 12); [vm_compute; reflexivity | lia]. }
  unfold chk in Hall. lia.
Qed.

(** A date of 2023 is the date that many days into the year. *)
Lemma date_of_dayofyear_2023 (dt : Datetime.date) :
  in_2023 dt ->
  Datetime.date_add (Datetime.mkdate 2023 1 1) (Datetime.dayofyear dt - 1) = Ok dt.
Proof.
  intros H. destruct (in_2023_inv dt H) as (Hdt & Hm & Hd & Hlen).
  pose (chk := fun m dd =>
    if dd <=? Datetime.days_in_month 2023 m then
      match Datetime.date_add (Datetime.mkdate 2023 1 1)
              (Datetime.dayofyear (Datetime.mkdate 2023 m dd) - 1) with
      | Ok x => date_eqb x (Datetime.mkdate 2023 m dd)
      | Raise _ => false
      end
    else true).
  assert (Hall : chk (Datetime.month dt) (Datetime.day dt) = true).
  { apply (Z_range_forallb (fun dd => chk (Datetime.month dt) dd) 1 31); [|lia].
    apply (Z_range_forallb
             (fun m => forallb (fun dd => chk m dd)
                         (map (fun i => 1 + Z.of_nat i) (seq 0 31))) 1 12);
      [vm_compute; reflexivity | lia]. }
  unfold chk in Hall. rewrite Hlen in Hall. rewrite <- Hdt in Hall.
  destruct (Datetime.date_add _ _) as [x|]; [|discriminate].
  now rewrite (date_eqb_eq _ _ Hall).
Qed.

(** X2: for every row the filter selects whose date lies in 2023, the date
    label of the run is that row's own date in the format
    ["%b %d, %Y"]: the label names the day of the rows on the map. *)
Theorem label_is_date_of_rows (c : string) (d : Z) (r : Row) :
  In r (filtered_data c d) -> in_2023 (Date r) ->
  selected_date d = Ok (Datetime.strftime "%b %d, %Y" (Date r)).
Proof.
  intros Hin H23. rewrite filtered_data_filter in Hin.
  apply filter_In in Hin as [_ Hsel]. apply mask_selected in Hsel as [_ Hday].
  pose proof (dayofyear_2023_le _ H23) as Hrange.
  pose proof (date_of_dayofyear_2023 _ H23) as Hadd.
  rewrite Hday in Hadd, Hrange.
  unfold selected_date.
  change (Datetime.date_new 2023 1 1) with (Ok (Datetime.mkdate 2023 1 1)).
  cbn [mbind result_bind]. unfold Datetime.timedelta.
  replace ((-999999999 <=? d - 1) && (d - 1 <=? 999999999)) with true
    by (symmetry; apply andb_true_iff; split; apply Z.leb_le; lia).
  cbn [mbind result_bind]. rewrite Hadd. reflexivity.
Qed.

Lemma filtered_data_decide (c : string) (d : Z) :
  filtered_data c d = List.filter (fun r => bool_decide (selected c d r)) gdf.
Proof.
  rewrite filtered_data_filter. apply filter_ext. intros r.
  apply eq_true_iff_eq. rewrite mask_selected, bool_decide_eq_true. reflexivity.
Qed.

Lemma filtered_labels_distinct (c : string) (d : Z) :
  List.NoDup (map idx gdf) -> List.NoDup (map idx (filtered_data c d)).
Proof.
  intros Hnd. apply NoDup_ListNoDup.
  apply (sublist_NoDup _ (map idx gdf)); [now apply NoDup_ListNoDup|].
  apply (fmap_sublist idx), getitem_sublist.
Qed.

(** X3: when the index labels of the table are distinct, the map of any
    selection draws exactly the rows of the table with the selected city
    and day, one polygon each, in table order, with the row's own label,
    boundary, value and hover fields. *)
Theorem map_shows_selected_rows (c : string) (d : Z) :
  List.NoDup (map idx gdf) ->
  Plotly.polygons (generate_plot (filtered_data c d))
  = map shape_of_row (List.filter (fun r => bool_decide (selected c d r)) gdf)
  /\ forall sh,
       In sh (Plotly.polygons (generate_plot (filtered_data c d)))
       <-> exists r, In r gdf /\ selected c d r /\ sh = shape_of_row r.
Proof.
  intros Hnd.
  assert (Hpoly : Plotly.polygons (generate_plot (filtered_data c d))
                  = map shape_of_row (filtered_data c d)).
  { rewrite polygons_generate_plot. apply omap_rows_eq. intros r Hr.
    unfold Plotly.shape_of. cbn [Plotly.pt_location point_of_row].
    now rewrite (find_feature_own _ r (filtered_labels_distinct c d Hnd) Hr). }
  split; [now rewrite Hpoly, filtered_data_decide|].
  intros sh. rewrite Hpoly, in_map_iff, filtered_data_filter. split.
  - intros (r & <- & Hr). apply filter_In in Hr as [Hin Hsel].
    apply mask_selected in Hsel. eauto.
  - intros (r & Hin & Hsel & ->). exists r. split; [reflexivity|].
    apply filter_In. split; [exact Hin | now apply mask_selected].
Qed.

(** X4: when every date of the table lies in 2023 and no two rows share
    city, ward and date, a ward occurs at most once in the subset of any
    selection. *)
Theorem ward_once_per_selection (c : string) (d : Z) :
  (forall r, In r gdf -> in_2023 (Date r)) ->
  List.NoDup (map (fun r => (City r, WARD r, Date r)) gdf) ->
  List.NoDup (map WARD (filtered_data c d)).
Proof.
  intros H23 Hnd.
  assert (Hsub : filtered_data c d `sublist_of` gdf) by apply getitem_sublist.
  assert (Hnd' : List.NoDup (map (fun r => (City r, WARD r, Date r)) (filtered_data c d))).
  { apply NoDup_ListNoDup.
    apply (sublist_NoDup _ (map (fun r => (City r, WARD r, Date r)) gdf));
      [now apply NoDup_ListNoDup|].
    apply (fmap_sublist (fun r => (City r, WARD r, Date r))), Hsub. }
  assert (Hsame : forall r, In r (filtered_data c d) ->
            Datetime.date_add (Datetime.mkdate 2023 1 1) (d - 1) = Ok (Date r)
            /\ City r = c).
  { intros r Hr. pose proof Hr as Hr'. rewrite filtered_data_filter in Hr'.
    apply filter_In in Hr' as [Hin Hsel]. apply mask_selected in Hsel as [Hc Hday].
    split; [|exact Hc]. rewrite <- Hday. apply date_of_dayofyear_2023, H23, Hin. }
  destruct (Datetime.date_add (Datetime.mkdate 2023 1 1) (d - 1)) as [dt|e] eqn:Hdt.
  - apply NoDup_ListNoDup, (NoDup_fmap_1 (fun w => (c, w, dt))), NoDup_ListNoDup.
    replace ((fun w => (c, w, dt)) <$> map WARD (filtered_data c d))
      with (map (fun r => (City r, WARD r, Date r)) (filtered_data c d)); [exact Hnd'|].
    rewrite <- list_fmap_compose. apply map_ext_in. intros r Hr.
    destruct (Hsame r Hr) as [Heq ->]. injection Heq as ->. reflexivity.
  - destruct (filtered_data c d) as [|r l]; [constructor|].
    destruct (Hsame r) as [Heq _]; [now left | discriminate].
Qed.

(** ** Start-up *)

Lemma seen_spec (x : string) (seen : list string) :
  existsb (String.eqb x) seen = true <-> In x seen.
Proof.
  rewrite existsb_exists. split.
  - intros (y & Hy & E). apply String.eqb_eq in E. now subst.
  - intros H. exists x. split; [exact H | apply String.eqb_refl].
Qed.

Lemma unique_from_In (seen l : list string) (x : string) :
  In x (unique_from seen l) <-> In x l /\ ~ In x seen.
Proof.
  revert seen. induction l as [|y l IH]; intros seen; cbn [unique_from].
  - simpl. tauto.
  - destruct (existsb (String.eqb y) seen) eqn:E.
    + apply seen_spec in E. rewrite IH. simpl. split.
      * tauto.
      * intros [[->|H] Hn]; [contradiction | tauto].
    + assert (Hy : ~ In y seen).
      { intros H. apply seen_spec in H. congruence. }
      simpl. rewrite IH. simpl. split.
      * intros [->|[H Hn]]; [tauto|]. split; [tauto|]. tauto.
      * intros [[->|H] Hn]; [tauto|].
        destruct (String.eqb_spec y x) as [->|Hneq]; [tauto|]. right. tauto.
Qed.

Lemma unique_from_NoDup (seen l : list string) : List.NoDup (unique_from seen l).
Proof.
  revert seen. induction l as [|y l IH]; intros seen; cbn [unique_from].
  - constructor.
  - destruct (existsb (String.eqb y) seen); [apply IH|].
    constructor; [|apply IH].
    rewrite unique_from_In. simpl. tauto.
Qed.

Lemma unique_from_sublist (seen l : list string) : unique_from seen l `sublist_of` l.
Proof.
  revert seen. induction l as [|y l IH]; intros seen; cbn [unique_from].
  - constructor.
  - destruct (existsb (String.eqb y) seen);
      [apply sublist_cons | apply sublist_skip]; apply IH.
Qed.

(** Only the set of values seen so far matters. *)
Lemma unique_from_ext (seen seen' l : list string) :
  (forall y, In y seen <-> In y seen') -> unique_from seen l = unique_from seen' l.
Proof.
  revert seen seen'. induction l as [|x l IH]; intros seen seen' Hs; cbn [unique_from].
  - reflexivity.
  - assert (E : existsb (String.eqb x) seen = existsb (String.eqb x) seen').
    { apply eq_true_iff_eq. rewrite !seen_spec. apply Hs. }
    rewrite E. destruct (existsb (String.eqb x) seen').
    + now apply IH.
    + f_equal. apply IH. intros y. simpl. rewrite Hs. reflexivity.
Qed.

Lemma unique_from_app (seen l1 l2 : list string) :
  unique_from seen (l1 ++ l2)
  = unique_from seen l1 ++ unique_from (l1 ++ seen) l2.
Proof.
  revert seen. induction l1 as [|x l1 IH]; intros seen; [reflexivity|].
  cbn [app unique_from]. destruct (existsb (String.eqb x) seen) eqn:E.
  - rewrite IH. f_equal. apply unique_from_ext.
    apply seen_spec in E. intros y. simpl. rewrite !in_app_iff.
    split; [tauto|]. intros [<-|H]; tauto.
  - cbn [app]. f_equal. rewrite IH. f_equal. apply unique_from_ext.
    intros y. simpl. rewrite !in_app_iff. simpl. tauto.
Qed.

(** Where a value first appears in the column, [unique] puts it right
    after the distinct values that appear before it. *)
Lemma unique_first_appearance (l1 l2 : list string) (x : string) :
  ~ In x l1 ->
  unique (l1 ++ x :: l2) = unique l1 ++ x :: unique_from (x :: l1) l2.
Proof.
  intros Hx. unfold unique. rewrite unique_from_app. f_equal.
  cbn [unique_from].
  assert (E : existsb (String.eqb x) (l1 ++ []) = false).
  { apply not_true_is_false. rewrite seen_spec, app_nil_r. exact Hx. }
  rewrite E. f_equal. apply unique_from_ext.
  intros y. simpl. rewrite app_nil_r. reflexivity.
Qed.

Lemma unique_month_marks_run :
  unique_month_marks
  = Started [(1, "Jan"); (32, "Feb"); (60, "Mar"); (91, "Apr"); (121, "May");
             (152, "Jun"); (182, "Jul"); (213, "Aug"); (244, "Sep"); (274, "Oct");
             (305, "Nov"); (335, "Dec")].
Proof. vm_compute. reflexivity. Qed.

Lemma layout_controls_run :
  layout_controls
  = match gdf with
    | [] => Aborted IndexError
    | r :: _ =>
        Started
          {| dropdown_options := map (fun city => (city, city)) (unique (map City gdf));
             dropdown_value := City r;
             slider_min := 1; slider_max := 365; slider_step := 1;
             slider_marks :=
               [(1, "Jan"); (32, "Feb"); (60, "Mar"); (91, "Apr"); (121, "May");
                (152, "Jun"); (182, "Jul"); (213, "Aug"); (244, "Sep"); (274, "Oct");
                (305, "Nov"); (335, "Dec")];
             slider_value := 1 |}
    end.
Proof.
  unfold layout_controls. rewrite unique_month_marks_run.
  destruct gdf; reflexivity.
Qed.

Lemma layout_controls_started (ctl : Controls) :
  layout_controls = Started ctl ->
  dropdown_options ctl = map (fun city => (city, city)) (unique (map City gdf))
  /\ head (map City gdf) = Some (dropdown_value ctl)
  /\ slider_min ctl = 1 /\ slider_max ctl = 365 /\ slider_value ctl = 1.
Proof.
  rewrite layout_controls_run. destruct gdf as [|r rows]; [discriminate|].
  intros H. assert (E : ctl = ltac:(match type of H with Started ?x = _ => exact x end))
    by congruence.
  rewrite E. repeat split.
Qed.

Lemma options_values (ctl : Controls) :
  layout_controls = Started ctl ->
  map snd (dropdown_options ctl) = unique (map City gdf).
Proof.
  intros H. destruct (layout_controls_started ctl H) as (-> & _).
  rewrite map_map. cbn [snd]. apply map_id.
Qed.

(** X7: building the layout raises [IndexError] exactly when the table has
    no rows, because the default city is read from the first row; with at
    least one row the layout is built. *)
Theorem layout_needs_a_row :
  (layout_controls = Aborted IndexError <-> gdf = [])
  /\ (gdf <> [] -> exists ctl, layout_controls = Started ctl).
Proof.
  rewrite layout_controls_run. destruct gdf as [|r rows].
  - split; [tauto | congruence].
  - split; [split; discriminate|]. intros _. eexists. reflexivity.
Qed.

(** X8: the city dropdown offers each city of the table once, with the
    city as label and as value, in the order in which the cities first
    appear in the table: at the place where a city first appears in the
    column, the options before it are exactly the cities that appear before
    that place; the default is the city of the first row, which is one of
    the options. *)
Theorem dropdown_offers_each_city_once (ctl : Controls) :
  layout_controls = Started ctl ->
  List.NoDup (map snd (dropdown_options ctl))
  /\ (forall o, In o (dropdown_options ctl) -> fst o = snd o)
  /\ (forall c, In c (map snd (dropdown_options ctl))
                 <-> exists r, In r gdf /\ City r = c)
  /\ map snd (dropdown_options ctl) `sublist_of` map City gdf
  /\ (forall l1 c l2,
        map City gdf = l1 ++ c :: l2 -> ~ In c l1 ->
        exists o1 o2,
          map snd (dropdown_options ctl) = o1 ++ c :: o2
          /\ forall y, In y o1 <-> In y l1)
  /\ head (map City gdf) = Some (dropdown_value ctl)
  /\ In (dropdown_value ctl) (map snd (dropdown_options ctl)).
Proof.
  intros H. rewrite (options_values ctl H).
  destruct (layout_controls_started ctl H) as (Hopts & Hhead & _).
  assert (Hin : forall c, In c (unique (map City gdf))
                          <-> exists r', In r' gdf /\ City r' = c).
  { intros c. unfold unique. rewrite unique_from_In, in_map_iff. simpl.
    split; [intros [(r' & E & Hr') _]; eauto | intros (r' & Hr' & E); eauto]. }
  split; [apply unique_from_NoDup|].
  split; [rewrite Hopts; intros o Ho; apply in_map_iff in Ho as (x & <- & _); reflexivity|].
  split; [exact Hin|].
  split; [apply unique_from_sublist|].
  split.
  { intros l1 c l2 Hsplit Hc. rewrite Hsplit, (unique_first_appearance l1 l2 c Hc).
    exists (unique l1), (unique_from (c :: l1) l2). split; [reflexivity|].
    intros y. unfold unique. rewrite unique_from_In. simpl. tauto. }
  split; [exact Hhead|].
  apply Hin. destruct gdf as [|r rows]; [discriminate|].
  injection Hhead as <-. exists r. split; [now left | reflexivity].
Qed.

Lemma first_of_month_only (k : Z) (name : string) :
  nth_day MONTHS_2023 k = Some (name, 1) ->
  In (k, name)
     [(1, "Jan"); (32, "Feb"); (60, "Mar"); (91, "Apr"); (121, "May");
      (152, "Jun"); (182, "Jul"); (213, "Aug"); (244, "Sep"); (274, "Oct");
      (305, "Nov"); (335, "Dec")].
Proof.
  cbn [nth_day MONTHS_2023].
  repeat match goal with
         | |- (if ?a <=? ?b then _ else _) = _ -> _ =>
             destruct (Z.leb_spec a b) as [_|_];
             [let E := fresh "E" in
              intros E; injection E as <- ?; simpl;
              repeat (first [solve [left; f_equal; lia] | right]) |]
         end.
  intros E. discriminate E.
Qed.

(** X9: the marks of the day slider are the twelve days of 2023 that are
    the first day of a month, each under the abbreviated name of that
    month; all of them lie within the range of the slider. *)
Theorem slider_marks_are_month_starts :
  exists marks,
    unique_month_marks = Started marks
    /\ List.length marks = 12%nat
    /\ (forall k name, In (k, name) marks <-> nth_day MONTHS_2023 k = Some (name, 1))
    /\ (forall k name, In (k, name) marks -> 1 <= k <= 365).
Proof.
  eexists. split; [apply unique_month_marks_run|]. split; [reflexivity|]. split.
  - intros k name. split; [|apply first_of_month_only].
    simpl. intros H.
    repeat (destruct H as [H|H]; [injection H as <- <-; reflexivity|]).
    destruct H.
  - intros k name H. simpl in H.
    repeat (destruct H as [H|H]; [injection H as <- <-; lia|]).
    destruct H.
Qed.

(** X10: with the slider on a mark, the date label of the callback is the
    text of that mark followed by [" 01, 2023"]. *)
Theorem mark_agrees_with_date_label (marks : list (Z * string)) (k : Z) (name : string) :
  unique_month_marks = Started marks -> In (k, name) marks ->
  selected_date k = Ok (String.append name " 01, 2023").
Proof.
  rewrite unique_month_marks_run. intros H. injection H as <-.
  simpl. intros H.
  repeat (destruct H as [H|H]; [injection H as <- <-; reflexivity|]).
  destruct H.
Qed.

(** X11: a row of the table whose date lies in 2023 is shown for exactly
    one setting of the two controls, its own city and its day of the
    year, and the layout offers that setting: the city is an option of the
    dropdown and the day is within the slider. *)
Theorem every_row_is_reachable (ctl : Controls) (r : Row) :
  layout_controls = Started ctl -> In r gdf -> in_2023 (Date r) ->
  exists d,
    In (City r) (map snd (dropdown_options ctl))
    /\ slider_min ctl <= d <= slider_max ctl
    /\ In r (filtered_data (City r) d)
    /\ forall c' d', In r (filtered_data c' d') -> c' = City r /\ d' = d.
Proof.
  intros Hl Hin H23. rewrite (options_values ctl Hl).
  destruct (layout_controls_started ctl Hl) as (_ & _ & -> & -> & _).
  exists (Datetime.dayofyear (Date r)).
  split; [|split; [|split]].
  - unfold unique. rewrite unique_from_In. split; [|simpl; tauto].
    now apply in_map.
  - apply dayofyear_2023_le, H23.
  - rewrite filtered_data_filter. apply filter_In. split; [exact Hin|].
    apply mask_selected. split; reflexivity.
  - intros c' d' H. rewrite filtered_data_filter in H.
    apply filter_In in H as [_ H]. apply mask_selected in H as [<- <-]. auto.
Qed.

(** X14: on the initial values of the controls the callback completes
    with the label "Jan 01, 2023", and when the first row of the table is
    dated on the first day of a year that row is the first one on the map. *)
Theorem initial_render (ctl : Controls) (plt : Pyplot.Gcf) :
  layout_controls = Started ctl ->
  exists out,
    update_graph (dropdown_value ctl) (slider_value ctl) plt = (Ok out, plt)
    /\ out_selected_date out = "Jan 01, 2023"
    /\ forall r rows,
         gdf = r :: rows -> Datetime.dayofyear (Date r) = 1 ->
         head (Plotly.locations (Plotly.data (out_figure out))) = Some (idx r).
Proof.
  intros Hl. destruct (layout_controls_started ctl Hl) as (_ & Hhead & _ & _ & ->).
  rewrite update_graph_run.
  change (selected_date 1) with (Ok "Jan 01, 2023").
  eexists. split; [reflexivity|]. split; [reflexivity|].
  intros r rows E Hday. rewrite E in Hhead. injection Hhead as <-.
  cbn [out_figure]. rewrite filtered_data_filter, E. cbn [List.filter].
  rewrite String.eqb_refl, Hday. reflexivity.
Qed.

(** ** The text of the legend source *)

Lemma enc6_char (n : N) : (n < 64)%N -> b64_char (Base64.enc6 n).
Proof.
  intros Hn. left. destruct (enc6_dec6 n Hn) as [-> _]. discriminate.
Qed.

Lemma b64encode_chars (bs : list Byte.byte) :
  List.Forall b64_char (string_chars (Base64.b64encode bs)).
Proof.
  induction bs as [|a|a b|a b c l IH] using list_ind3.
  - constructor.
  - pose proof (Byte.to_N_bounded a).
    cbn [Base64.b64encode string_chars].
    repeat (apply List.Forall_cons;
            [first [apply enc6_char; byte_arith | now right]|]).
    apply List.Forall_nil.
  - pose proof (Byte.to_N_bounded a). pose proof (Byte.to_N_bounded b).
    cbn [Base64.b64encode string_chars].
    repeat (apply List.Forall_cons;
            [first [apply enc6_char; byte_arith | now right]|]).
    apply List.Forall_nil.
  - pose proof (Byte.to_N_bounded a). pose proof (Byte.to_N_bounded b).
    pose proof (Byte.to_N_bounded c).
    cbn [Base64.b64encode string_chars].
    repeat (apply List.Forall_cons; [apply enc6_char; byte_arith|]). exact IH.
Qed.

Lemma b64encode_length (bs : list Byte.byte) :
  String.length (Base64.b64encode bs) = (4 * ((List.length bs + 2) / 3))%nat.
Proof.
  induction bs as [|a|a b|a b c l IH] using list_ind3; try reflexivity.
  cbn [Base64.b64encode String.length List.length]. rewrite IH.
  replace (S (S (S (List.length l))) + 2)%nat with (1 * 3 + (List.length l + 2))%nat by lia.
  rewrite Nat.div_add_l by lia. lia.
Qed.

(** X12: the legend source of a run that completes is the prefix
    [data:image/png;base64,] followed by a text made only of the 64
    characters of the base64 alphabet and [=], four characters for every
    three bytes of the image, rounded up. *)
Theorem legend_source_text (c : string) (d : Z) (plt plt' : Pyplot.Gcf) (out : Outputs) :
  update_graph c d plt = (Ok out, plt') ->
  exists payload,
    out_colorbar_src out = String.append "data:image/png;base64," payload
    /\ List.Forall b64_char (string_chars payload)
    /\ String.length payload
       = (4 * ((List.length (savefig colorbar_figure png_options) + 2) / 3))%nat.
Proof.
  intros H. apply update_graph_legend in H as (_ & -> & _).
  exists (Base64.b64encode colorbar_png). split; [reflexivity|].
  split; [apply b64encode_chars | apply b64encode_length].
Qed.

(** X13: base64 loses nothing: decoding the text of any bytes gives the
    bytes back, so two different byte strings never have the same text. *)
Theorem base64_round_trip (bs bs' : list Byte.byte) :
  Base64.b64decode (Base64.b64encode bs) = Some bs
  /\ (Base64.b64encode bs = Base64.b64encode bs' -> bs = bs').
Proof.
  split; [apply b64decode_b64encode|].
  intros E. pose proof (b64decode_b64encode bs) as H.
  rewrite E, b64decode_b64encode in H. congruence.
Qed.

End Dashboard.

(** ** The theorems at work on the sample table *)

Lemma filter_exact_witness :
  In (Sample.row 2 "Kolkata" "1" "Shyambazar" 2 14 64.25 88.4 22.6)
     (filtered_data Sample.gdf "Kolkata" 45)
  /\ map idx (filtered_data Sample.gdf "Kolkata" 45) = [2; 3].
Proof.
  split; [|reflexivity].
  apply (filter_exact Sample.gdf "Kolkata" 45). split.
  - simpl. auto.
  - split; reflexivity.
Defined.

Lemma filter_no_match_witness :
  filtered_data Sample.gdf "Kolkata" 200 = []
  /\ filtered_data Sample.gdf "Delhi" 45 = []
  /\ filtered_data Sample.gdf "Kolkata" 366 = []
  /\ snd (update_graph Sample.centroid Sample.savefig Sample.gdf "Kolkata" 200 Sample.busy)
     = Sample.busy.
Proof.
  pose proof (filter_no_match Sample.centroid Sample.savefig Sample.gdf
                "Kolkata" 200 Sample.busy) as (Hnone & _ & Hleap & Hstate).
  pose proof (filter_no_match Sample.centroid Sample.savefig Sample.gdf
                "Delhi" 45 Sample.busy) as (_ & Hcity & _ & _).
  split; [|split; [|split]].
  - apply Hnone. apply List.Forall_forall. vm_compute.
    repeat constructor; intros [_ H]; discriminate H.
  - apply Hcity. simpl. intros H.
    repeat (destruct H as [H|H]; [discriminate H|]). exact H.
  - apply Hleap. apply List.Forall_forall. vm_compute. repeat constructor.
  - exact Hstate.
Defined.

Lemma render_empty_subset_witness :
  exists out,
    update_graph Sample.centroid Sample.savefig Sample.gdf "Delhi" 366 Sample.busy
    = (Ok out, Sample.busy)
    /\ Plotly.polygons (out_figure out) = [].
Proof.
  apply (render_empty_subset Sample.centroid Sample.savefig Sample.gdf)
    with (s := "Jan 01, 2024"); vm_compute; reflexivity.
Defined.

Lemma date_label_2023_witness :
  nth_day MONTHS_2023 45 = Some ("Feb", 14) /\ selected_date 45 = Ok "Feb 14, 2023".
Proof.
  split; [reflexivity|].
  apply (date_label_2023 45). lia.
Defined.

Lemma legend_same_for_all_selections_witness :
  exists out1 out2,
    update_graph Sample.centroid Sample.savefig Sample.gdf "Kolkata" 45 [] = (Ok out1, [])
    /\ update_graph Sample.centroid Sample.savefig Sample.gdf "Howrah" 1 Sample.busy
       = (Ok out2, Sample.busy)
    /\ out_colorbar_src out1 = out_colorbar_src out2.
Proof.
  apply (legend_same_for_all_selections Sample.centroid Sample.savefig Sample.gdf
           "Kolkata" "Howrah" 45 1 [] Sample.busy); lia.
Defined.

Lemma legend_inline_png_witness :
  exists out fig,
    update_graph Sample.centroid Sample.savefig Sample.gdf "Kolkata" 45 Sample.busy
    = (Ok out, Sample.busy)
    /\ png_of_data_uri (out_colorbar_src out) = Some (Sample.savefig fig png_options)
    /\ List.length (Pyplot.fig_axes fig) = 2%nat.
Proof.
  destruct (legend_inline_png Sample.centroid Sample.savefig Sample.gdf
              "Kolkata" 45 Sample.busy)
    as (out & fig & hidden & bar & cb & Hrun & _ & Hpng & _ & Haxes & _); [lia|].
  exists out, fig. split; [exact Hrun|]. split; [exact Hpng | now rewrite Haxes].
Defined.

Lemma one_polygon_per_record_witness :
  Plotly.polygons (generate_plot Sample.centroid (filtered_data Sample.gdf "Kolkata" 45))
  = map shape_of_row (filtered_data Sample.gdf "Kolkata" 45)
  /\ List.length
       (Plotly.polygons (generate_plot Sample.centroid (filtered_data Sample.gdf "Kolkata" 45)))
     = 2%nat.
Proof.
  apply (one_polygon_per_record Sample.centroid (filtered_data Sample.gdf "Kolkata" 45)).
  vm_compute. repeat constructor; simpl; intuition discriminate.
Defined.

(** Two rows of one selection under the same label: the filter returns
    both, and the shapes of the map are not the shapes of the rows. *)
Lemma one_polygon_per_record_counterexample :
  filtered_data Sample.twins "Kolkata" 45 = Sample.twins
  /\ filtered_data Sample.twins "Kolkata" 45 <> []
  /\ Plotly.polygons
       (generate_plot Sample.centroid (filtered_data Sample.twins "Kolkata" 45))
     <> map shape_of_row (filtered_data Sample.twins "Kolkata" 45).
Proof.
  split; [reflexivity|]. split; [discriminate|].
  vm_compute. intros H. discriminate H.
Qed.

Lemma map_frame_witness :
  Plotly.zoom (Plotly.mapbox
    (generate_plot Sample.centroid (filtered_data Sample.gdf "Kolkata" 45))) = 10.6%Q.
Proof.
  apply (map_frame Sample.centroid (filtered_data Sample.gdf "Kolkata" 45)).
  vm_compute. discriminate.
Defined.

(** The scenario of a day in February: Kolkata on day 45. *)
Example kolkata_day_45 :
  exists out,
    update_graph Sample.centroid Sample.savefig Sample.gdf "Kolkata" 45 Sample.busy
    = (Ok out, Sample.busy)
    /\ Plotly.locations (Plotly.data (out_figure out)) = [2; 3]
    /\ map Plotly.sh_hover (Plotly.polygons (out_figure out))
       = [Some ("1", "Shyambazar", 64.25%Q); Some ("2", "Behala", 18%Q)]
    /\ out_colorbar_src out = "data:image/png;base64,iVBORw0KGgoA"
    /\ out_selected_date out = "Feb 14, 2023".
Proof. eexists. split; [vm_compute; reflexivity|]. repeat split. Qed.

(** Far outside the slider the date does not exist and the callback
    raises, after the legend figure has been closed again. *)
Example day_out_of_calendar :
  update_graph Sample.centroid Sample.savefig Sample.gdf "Kolkata" 2913540 Sample.busy
  = (Raise OverflowError, Sample.busy).
Proof. vm_compute. reflexivity. Qed.

(** ** The further properties at work on the sample table *)

Lemma callback_day_range_witness :
  (exists out,
     update_graph Sample.centroid Sample.savefig Sample.gdf "Kolkata" 400 Sample.busy
     = (Ok out, Sample.busy)
     /\ out_figure out
        = generate_plot Sample.centroid (filtered_data Sample.gdf "Kolkata" 400))
  /\ update_graph Sample.centroid Sample.savefig Sample.gdf "Kolkata" 2913540 Sample.busy
     = (Raise OverflowError, Sample.busy).
Proof.
  split.
  - apply (callback_day_range Sample.centroid Sample.savefig Sample.gdf
             "Kolkata" 400 Sample.busy). lia.
  - apply (callback_day_range Sample.centroid Sample.savefig Sample.gdf
             "Kolkata" 2913540 Sample.busy). lia.
Defined.

Lemma label_is_date_of_rows_witness :
  selected_date 45 = Ok (Datetime.strftime "%b %d, %Y" (Datetime.mkdate 2023 2 14)).
Proof.
  apply (label_is_date_of_rows Sample.gdf "Kolkata" 45
           (Sample.row 2 "Kolkata" "1" "Shyambazar" 2 14 64.25 88.4 22.6)).
  - simpl. auto.
  - reflexivity.
Defined.

Lemma map_shows_selected_rows_witness :
  map Plotly.sh_key
    (Plotly.polygons (generate_plot Sample.centroid (filtered_data Sample.gdf "Kolkata" 45)))
  = [2; 3].
Proof.
  destruct (map_shows_selected_rows Sample.centroid Sample.gdf "Kolkata" 45) as [-> _].
  - vm_compute. repeat constructor; simpl; intuition discriminate.
  - reflexivity.
Defined.

Lemma ward_once_per_selection_witness :
  List.NoDup (map WARD (filtered_data Sample.gdf "Kolkata" 45)).
Proof.
  apply (ward_once_per_selection Sample.gdf "Kolkata" 45).
  - apply List.Forall_forall. vm_compute. repeat constructor.
  - vm_compute. repeat constructor; simpl; intuition discriminate.
Defined.

Lemma layout_needs_a_row_witness :
  exists ctl, layout_controls Sample.gdf = Started ctl.
Proof.
  apply (layout_needs_a_row Sample.gdf). discriminate.
Defined.

Lemma dropdown_offers_each_city_once_witness :
  exists ctl,
    layout_controls Sample.gdf = Started ctl
    /\ List.NoDup (map snd (dropdown_options ctl))
    /\ (exists o1 o2,
          map snd (dropdown_options ctl) = o1 ++ "Kolkata" :: o2
          /\ forall y, In y o1 <-> In y ["Howrah"; "Howrah"])
    /\ In (dropdown_value ctl) (map snd (dropdown_options ctl)).
Proof.
  assert (Hl : exists ctl, layout_controls Sample.gdf = Started ctl)
    by (eexists; vm_compute; reflexivity).
  destruct Hl as [ctl Hl].
  destruct (dropdown_offers_each_city_once Sample.gdf ctl Hl)
    as (Hnd & _ & _ & _ & Hfirst & _ & Hdefault).
  exists ctl. split; [exact Hl|]. split; [exact Hnd|]. split; [|exact Hdefault].
  apply (Hfirst ["Howrah"; "Howrah"] "Kolkata" ["Kolkata"; "Kolkata"]).
  - reflexivity.
  - simpl. intros [H|[H|H]]; [discriminate H | discriminate H | exact H].
Defined.

Lemma slider_marks_are_month_starts_witness :
  exists marks,
    unique_month_marks = Started marks /\ In (32, "Feb") marks /\ 1 <= 32 <= 365.
Proof.
  destruct slider_marks_are_month_starts as (marks & Hmarks & _ & Hiff & Hrange).
  assert (Hin : In (32, "Feb") marks) by (apply Hiff; reflexivity).
  exists marks. split; [exact Hmarks|]. split; [exact Hin|].
  apply (Hrange 32 "Feb" Hin).
Defined.

Lemma mark_agrees_with_date_label_witness :
  selected_date 32 = Ok "Feb 01, 2023".
Proof.
  apply (mark_agrees_with_date_label
           [(1, "Jan"); (32, "Feb"); (60, "Mar"); (91, "Apr"); (121, "May");
            (152, "Jun"); (182, "Jul"); (213, "Aug"); (244, "Sep"); (274, "Oct");
            (305, "Nov"); (335, "Dec")] 32 "Feb").
  - vm_compute. reflexivity.
  - simpl. auto.
Defined.

Lemma every_row_is_reachable_witness :
  exists ctl d,
    layout_controls Sample.gdf = Started ctl
    /\ slider_min ctl <= d <= slider_max ctl
    /\ In (Sample.row 4 "Kolkata" "1" "Shyambazar" 12 31 99.125 88.4 22.6)
          (filtered_data Sample.gdf "Kolkata" d).
Proof.
  assert (Hl : exists ctl, layout_controls Sample.gdf = Started ctl)
    by (eexists; vm_compute; reflexivity).
  destruct Hl as [ctl Hl].
  destruct (every_row_is_reachable Sample.gdf ctl
              (Sample.row 4 "Kolkata" "1" "Shyambazar" 12 31 99.125 88.4 22.6) Hl)
    as (d & _ & Hd & Hin & _).
  - simpl. auto 10.
  - reflexivity.
  - exists ctl, d. split; [exact Hl|]. split; [exact Hd | exact Hin].
Defined.

Lemma legend_source_text_witness :
  exists out payload,
    update_graph Sample.centroid Sample.savefig Sample.gdf "Kolkata" 45 Sample.busy
    = (Ok out, Sample.busy)
    /\ out_colorbar_src out = String.append "data:image/png;base64," payload
    /\ String.length payload = 12%nat.
Proof.
  assert (Hrun : exists out,
            update_graph Sample.centroid Sample.savefig Sample.gdf "Kolkata" 45 Sample.busy
            = (Ok out, Sample.busy))
    by (eexists; vm_compute; reflexivity).
  destruct Hrun as [out Hrun].
  destruct (legend_source_text Sample.centroid Sample.savefig Sample.gdf
              "Kolkata" 45 Sample.busy Sample.busy out Hrun)
    as (payload & Hsrc & _ & Hlen).
  exists out, payload. split; [exact Hrun|]. split; [exact Hsrc | exact Hlen].
Defined.

Lemma base64_round_trip_witness :
  Base64.b64decode (Base64.b64encode [Byte.x4d; Byte.x61]) = Some [Byte.x4d; Byte.x61]
  /\ [Byte.x4d; Byte.x61] = [Byte.x4d; Byte.x61].
Proof.
  destruct (base64_round_trip [Byte.x4d; Byte.x61] [Byte.x4d; Byte.x61]) as [Hdec Hinj].
  split; [exact Hdec | apply Hinj; reflexivity].
Defined.

Lemma initial_render_witness :
  exists ctl out,
    layout_controls Sample.gdf = Started ctl
    /\ update_graph Sample.centroid Sample.savefig Sample.gdf
         (dropdown_value ctl) (slider_value ctl) Sample.busy
       = (Ok out, Sample.busy)
    /\ head (Plotly.locations (Plotly.data (out_figure out))) = Some 0.
Proof.
  assert (Hl : exists ctl, layout_controls Sample.gdf = Started ctl)
    by (eexists; vm_compute; reflexivity).
  destruct Hl as [ctl Hl].
  destruct (initial_render Sample.centroid Sample.savefig Sample.gdf ctl Sample.busy Hl)
    as (out & Hrun & _ & Hfirst).
  exists ctl, out. split; [exact Hl|]. split; [exact Hrun|].
  apply (Hfirst _ _ eq_refl). reflexivity.
Defined.
